(** * Scaleway Dedibox DNS provider: zone-version client and challenge coordinator

    Shallow embedding of
    - [providers/dns/scalewaydedibox/internal/client.go] (the REST client),
    - the declarations of [Record] and [Version] of package [internal],
    - package [scalewaydedibox] ([Config], [DNSProvider], [Present],
      [CleanUp]).

    Go strings are byte strings: they are modelled by [string] (a list of
    8-bit [ascii]); Go [int] values are modelled by [Z] (no arithmetic of the
    program gets near the 64-bit bounds: the only computation is [len s - 1]).
    A Go function returning [(T, error)] that can also panic is a computation
    with three outcomes, see [Res]. *)

From Stdlib Require Import String Ascii List ZArith Bool Lia.
Import ListNotations.
Open Scope string_scope.
Open Scope Z_scope.

Set Implicit Arguments.

(** ** Go runtime and standard-library pieces used by the program *)

Module Go.

(** Run-time faults of the two partial operations the program uses. *)
Inductive Panic :=
| IndexOutOfRange (index : Z) (len : Z)
| SliceBoundsOutOfRange (low high : Z) (len : Z).

(** [len(s)] *)
Definition len (s : string) : Z := Z.of_nat (String.length s).

(** [s[low:high]] on a string: faults unless [0 <= low <= high <= len(s)]. *)
Definition slice (s : string) (low high : Z) : Panic + string :=
  if (0 <=? low) && (low <=? high) && (high <=? len s)
  then inr (substring (Z.to_nat low) (Z.to_nat (high - low)) s)
  else inl (SliceBoundsOutOfRange low high (len s)).

(** [strings.HasPrefix(s, prefix)] *)
Definition HasPrefix (s prefix : string) : bool := String.prefix prefix s.

(** [strings.Replace(s, old, new, 1)]: the first occurrence of [old]
    replaced by [new]; [s] when there is none. *)
Definition Replace1 (s old new : string) : string :=
  match String.index 0 old s with
  | Some i =>
      substring 0 i s ++ new
      ++ substring (i + String.length old) (String.length s - (i + String.length old)) s
  | None => s
  end.

(** [slices.IndexFunc(s, f)]: index of the first element satisfying [f],
    or [-1]. *)
Fixpoint IndexFunc {A : Type} (s : list A) (f : A -> bool) : Z :=
  match s with
  | [] => -1
  | x :: s' => if f x then 0 else
                 let i := IndexFunc s' f in
                 if i =? -1 then -1 else i + 1
  end.

(** [s[i]] on a slice: faults unless [0 <= i < len(s)]. *)
Definition index {A : Type} (s : list A) (i : Z) : Panic + A :=
  if (0 <=? i) && (i <? Z.of_nat (List.length s))
  then match nth_error s (Z.to_nat i) with
       | Some x => inr x
       | None => inl (IndexOutOfRange i (Z.of_nat (List.length s)))
       end
  else inl (IndexOutOfRange i (Z.of_nat (List.length s))).

(** *** The fragment of [regexp] the program uses

    Syntax trees as [regexp/syntax] builds them; only the operators that
    occur in the program's one pattern are present.  Alternation binds
    weaker than concatenation, and [^], [$] (without the [m] flag) are
    begin-of-text and end-of-text. *)
Inductive Regexp :=
| OpBeginText
| OpEndText
| OpLiteral (runes : list ascii)
| OpCapture (sub : Regexp)
| OpConcat (r1 r2 : Regexp)
| OpAlternate (r1 r2 : Regexp).

(** Concrete syntax of a tree.  A concatenation has to bracket an
    alternation below it, which is how one reads off that a pattern
    without such brackets is an alternation at the top. *)
Fixpoint render (r : Regexp) : string :=
  match r with
  | OpBeginText => "^"
  | OpEndText => "$"
  | OpLiteral w => string_of_list_ascii w
  | OpCapture r => "(" ++ render r ++ ")"
  | OpConcat r1 r2 =>
      let paren r := match r with
                     | OpAlternate _ _ => "(?:" ++ render r ++ ")"
                     | _ => render r
                     end in
      paren r1 ++ paren r2
  | OpAlternate r1 r2 => render r1 ++ "|" ++ render r2
  end.

(** [stripPrefix w s] is the rest of [s] after [w], when [s] starts with [w]. *)
Fixpoint stripPrefix (w s : list ascii) : option (list ascii) :=
  match w with
  | [] => Some s
  | c :: w' => match s with
               | [] => None
               | x :: s' => if Ascii.eqb x c then stripPrefix w' s' else None
               end
  end.

(** Backtracking matcher.  A position in the text is the pair of
    [atStart] (nothing has been consumed and the search began at offset 0)
    and the unread input; [k] is what remains to be matched. *)
Fixpoint matchHere (r : Regexp) (atStart : bool) (s : list ascii)
         (k : bool -> list ascii -> bool) : bool :=
  match r with
  | OpBeginText => atStart && k atStart s
  | OpEndText => match s with [] => k atStart s | _ :: _ => false end
  | OpLiteral w => match stripPrefix w s with
                   | Some s' => k (atStart && match w with [] => true | _ => false end) s'
                   | None => false
                   end
  | OpCapture r => matchHere r atStart s k
  | OpConcat r1 r2 => matchHere r1 atStart s (fun b s' => matchHere r2 b s' k)
  | OpAlternate r1 r2 => matchHere r1 atStart s k || matchHere r2 atStart s k
  end.

(** The continuation of a complete match: nothing is left to match. *)
Definition anything : bool -> list ascii -> bool := fun _ _ => true.

(** Unanchored search: a match may begin at any offset. *)
Fixpoint searchFrom (r : Regexp) (atStart : bool) (s : list ascii) : bool :=
  matchHere r atStart s anything
  || match s with
     | [] => false
     | _ :: s' => searchFrom r false s'
     end.

(** [re.MatchString(s)]: whether [s] contains any match of [re]. *)
Definition MatchString (re : Regexp) (s : string) : bool :=
  searchFrom re true (list_ascii_of_string s).

(** The bytes of a string. *)
Definition word (s : string) : list ascii := list_ascii_of_string s.

(** Readings of a search result: the text starts with, contains, or ends
    with a word. *)
Definition startsWith (w s : list ascii) : Prop := exists post, s = (w ++ post)%list.
Definition contains (w s : list ascii) : Prop :=
  exists pre post, s = (pre ++ w ++ post)%list.
Definition endsWith (w s : list ascii) : Prop := exists pre, s = (pre ++ w)%list.

End Go.

(** ** Package [internal]: the types and [client.go] *)

Module Internal.

Definition DefaultBaseURL : string := "https://api.online.net/api/v1".
Definition DefaultRecordPriority : Z := 12.

(** [type Record struct]; the field [Type] is spelled [Type_]. *)
Record Record_ := mkRecord {
  Type_ : string;
  Name : string;
  Value : string;
  TTL : Z;
  Priority : Z
}.

(** [type Version struct]; [VName] is the field [Name], [DomainRef] and
    [ZoneRef] are the fields [Domain.Ref] and [Zone.Ref]. *)
Record Version := mkVersion {
  UUIDRef : string;
  VName : string;
  CreationDate : string;
  DomainRef : string;
  ZoneRef : string;
  Active : bool
}.

(** Zero values: [Record{}] and [Version{}]. *)
Definition zeroRecord : Record_ := mkRecord "" "" "" 0 0.
Definition zeroVersion : Version := mkVersion "" "" "" "" "" false.

(** Go's [==] on the struct [Version]: field by field. *)
Definition Version_eqb (a b : Version) : bool :=
  String.eqb a.(UUIDRef) b.(UUIDRef)
  && String.eqb a.(VName) b.(VName)
  && String.eqb a.(CreationDate) b.(CreationDate)
  && String.eqb a.(DomainRef) b.(DomainRef)
  && String.eqb a.(ZoneRef) b.(ZoneRef)
  && Bool.eqb a.(Active) b.(Active).

(** *** HTTP requests as the client builds them *)

Inductive Method := MethodGet | MethodPost | MethodDelete | MethodPatch.

(** The value of [baseURL.JoinPath(elem...)]: the base and the path elements
    handed to [JoinPath], in order. *)
Record URL := JoinPath { Base : string; Elem : list string }.

(** The [payload any] argument of [newJSONRequest]: [nil], the anonymous
    struct [{Name string `json:"name"`}] of [CreateZoneVersion], or a
    [Record]. *)
Inductive Payload :=
| PayloadNil
| PayloadVersion (name : string)
| PayloadRecord (r : Record_).

Record Request := mkRequest {
  ReqMethod : Method;
  ReqURL : URL;
  ReqBody : Payload;
  ReqHeader : list (string * string)
}.

(** [http.Client]; only the timeout (in nanoseconds) is configured here. *)
Record HTTPClient := mkHTTPClient { Timeout : Z }.

Definition Second : Z := 1000000000.

(** What [HTTPClient.Do] gives back: an error, or a response with a status
    code and a body ([None] when reading the body fails). *)
Inductive Response (Raw : Type) :=
| DoFailed
| Responded (StatusCode : Z) (body : option Raw).
Arguments DoFailed {Raw}.

(** The collaborators outside the program: the remote registrar reached
    through [HTTPClient.Do], [http.NewRequestWithContext] (which may refuse a
    URL) and [json.Unmarshal] at the four result types the client uses. *)
Class Backend := {
  Raw : Type;
  Server : Type;
  Do : HTTPClient -> Request -> Server -> Response Raw * Server;
  NewRequestOK : Method -> URL -> bool;
  UnmarshalVersions : Raw -> option (list Version);
  UnmarshalVersion : Raw -> option Version;
  UnmarshalRecords : Raw -> option (list Record_);
  UnmarshalRecord : Raw -> option Record_
}.

(** Errors of the client: [errors.New], [fmt.Errorf] and the [errutils]
    constructors, one constructor per call site kind. *)
Inductive Error :=
| ErrMissingAPIToken
| ErrCreateRequest (m : Method) (u : URL)
| ErrHTTPDo (req : Request)
| ErrUnexpectedStatus (req : Request) (status : Z)
| ErrReadResponse (req : Request) (status : Z)
| ErrUnmarshal (req : Request) (status : Z).

(** *** Computations: a result, an error or a panic, over the world *)

Inductive Res (E A : Type) :=
| Ok (a : A)
| Err (e : E)
| Fault (p : Go.Panic).
Arguments Ok {E A}.
Arguments Err {E A}.
Arguments Fault {E A}.

(** A computation over a state [S] with errors [E]. *)
Definition Comp (S E A : Type) : Type := S -> Res E A * S.

Definition ret {S E A : Type} (a : A) : Comp S E A := fun s => (Ok a, s).

Definition bind {S E A B : Type} (m : Comp S E A) (k : A -> Comp S E B)
  : Comp S E B :=
  fun s => match m s with
           | (Ok a, s') => k a s'
           | (Err e, s') => (Err e, s')
           | (Fault p, s') => (Fault p, s')
           end.

Definition fail {S E A : Type} (e : E) : Comp S E A := fun s => (Err e, s).

(** A partial run-time operation: its fault unwinds the computation. *)
Definition try {S E A : Type} (x : Go.Panic + A) : Comp S E A :=
  fun s => match x with
           | inr a => (Ok a, s)
           | inl p => (Fault p, s)
           end.

(** The world: the registrar's state and the requests handed to
    [HTTPClient.Do] so far, oldest first. *)
Record World `{Backend} := mkWorld {
  server : Server;
  sent : list Request
}.

(** Computations of the client. *)
Definition M `{Backend} (A : Type) : Type := Comp World Error A.

Notation "x <- m ;; k" := (bind m (fun x => k))
  (at level 61, m at next level, right associativity).

Section Client.
Context `{Backend}.

Record Client := mkClient {
  apiToken : string;
  baseURL : string;
  HTTPClient_ : HTTPClient
}.

(** [NewClient]. *)
Definition NewClient (apiToken : string) : Error + Client :=
  if String.eqb apiToken "" then inl ErrMissingAPIToken
  else inr {| apiToken := apiToken;
              baseURL := DefaultBaseURL;
              HTTPClient_ := {| Timeout := 5 * Second |} |}.

(** [newJSONRequest].  Encoding one of the three payloads cannot fail;
    [http.NewRequestWithContext] may. *)
Definition newJSONRequest (c : Client) (method : Method) (endpoint : URL)
           (payload : Payload) : M Request :=
  if NewRequestOK method endpoint then
    let header := [("Accept", "application/json");
                   ("Authorization", "Bearer " ++ c.(apiToken))] in
    let header := match payload with
                  | PayloadNil => header
                  | _ => (header ++ [("Content-Type", "application/json")])%list
                  end in
    ret (mkRequest method endpoint payload header)
  else fail (ErrCreateRequest method endpoint).

(** [do].  [result] is the decoder for the pointer passed as [result]
    ([None] for [nil]) and [zero] the value that pointer's target has
    before the call. *)
Definition do {A : Type} (c : Client) (req : Request)
           (result : option (Raw -> option A)) (zero : A) : M A :=
  fun w =>
    let (resp, srv) := Do c.(HTTPClient_) req w.(server) in
    let w' := {| server := srv; sent := (w.(sent) ++ [req])%list |} in
    match resp with
    | DoFailed => (Err (ErrHTTPDo req), w')
    | Responded status body =>
        if negb (Z.quot status 100 =? 2)
        then (Err (ErrUnexpectedStatus req status), w')
        else match result with
             | None => (Ok zero, w')
             | Some unmarshal =>
                 match body with
                 | None => (Err (ErrReadResponse req status), w')
                 | Some raw =>
                     match unmarshal raw with
                     | Some v => (Ok v, w')
                     | None => (Err (ErrUnmarshal req status), w')
                     end
                 end
             end
    end.

(** [authZone[0 : len(authZone)-1]] *)
Definition domainNameOf (authZone : string) : Go.Panic + string :=
  Go.slice authZone 0 (Go.len authZone - 1).

(** [ListAllVersions] *)
Definition ListAllVersions (c : Client) (authZone : string) : M (list Version) :=
  domainName <- try (domainNameOf authZone) ;;
  let endpoint := JoinPath c.(baseURL) ["domain"; domainName; "version"] in
  req <- newJSONRequest c MethodGet endpoint PayloadNil ;;
  do c req (Some UnmarshalVersions) [].

(** [FindActiveZoneVersion] *)
Definition FindActiveZoneVersion (c : Client) (authZone : string) : M Version :=
  versions <- ListAllVersions c authZone ;;
  let activeidx := Go.IndexFunc versions (fun v => v.(Active)) in
  result <- try (Go.index versions activeidx) ;;
  ret result.

(** [FindZoneVersion] *)
Definition FindZoneVersion (c : Client) (authZone : string) (versionName : string)
  : M Version :=
  versions <- ListAllVersions c authZone ;;
  let activeidx := Go.IndexFunc versions (fun v => String.eqb v.(VName) versionName) in
  if activeidx >? -1
  then result <- try (Go.index versions activeidx) ;; ret result
  else ret zeroVersion.

(** [GetZoneVersion] *)
Definition GetZoneVersion (c : Client) (authZone : string) (versionUUID : string)
  : M Version :=
  domainName <- try (domainNameOf authZone) ;;
  let endpoint := JoinPath c.(baseURL) ["domain"; domainName; "version"; versionUUID] in
  req <- newJSONRequest c MethodGet endpoint PayloadNil ;;
  do c req (Some UnmarshalVersion) zeroVersion.

(** [CreateZoneVersion] *)
Definition CreateZoneVersion (c : Client) (authZone : string) (versionName : string)
  : M Version :=
  domainName <- try (domainNameOf authZone) ;;
  let endpoint := JoinPath c.(baseURL) ["domain"; domainName; "version"] in
  let payload := PayloadVersion "lego_tmp" in
  req <- newJSONRequest c MethodPost endpoint payload ;;
  do c req (Some UnmarshalVersion) zeroVersion.

(** [DeleteZoneVersion] *)
Definition DeleteZoneVersion (c : Client) (authZone : string) (versionUUID : string)
  : M unit :=
  domainName <- try (domainNameOf authZone) ;;
  let endpoint := JoinPath c.(baseURL) ["domain"; domainName; "version"; versionUUID] in
  req <- newJSONRequest c MethodDelete endpoint PayloadNil ;;
  do c req None tt.

(** [GetAllRecords] *)
Definition GetAllRecords (c : Client) (authZone : string) (versionUUID : string)
  : M (list Record_) :=
  domainName <- try (domainNameOf authZone) ;;
  let endpoint :=
    JoinPath c.(baseURL) ["domain"; domainName; "version"; versionUUID; "zone"] in
  req <- newJSONRequest c MethodGet endpoint PayloadNil ;;
  do c req (Some UnmarshalRecords) [].

(** [GetRecord] *)
Definition GetRecord (c : Client) (authZone : string) (versionUUID : string)
           (recordName : string) (recordType : string) : M Record_ :=
  allRecords <- GetAllRecords c authZone versionUUID ;;
  let recordIdx :=
    Go.IndexFunc allRecords
      (fun r => String.eqb r.(Name) recordName && String.eqb r.(Type_) recordType) in
  if recordIdx >? -1
  then result <- try (Go.index allRecords recordIdx) ;; ret result
  else ret zeroRecord.

(** [ReadVersionUUID] *)
Definition ReadVersionUUID (c : Client) (authZone : string) (versionUUID : string)
  : M string :=
  record <- GetRecord c authZone versionUUID "lego" "TXT" ;;
  if Go.HasPrefix record.(Value) "active_version:"
  then result <- try (Go.slice record.(Value) 15 (Go.len record.(Value))) ;; ret result
  else ret "".

(** [EnableZone] *)
Definition EnableZone (c : Client) (authZone : string) (versionID : string) : M unit :=
  domainName <- try (domainNameOf authZone) ;;
  let endpoint :=
    JoinPath c.(baseURL) ["domain"; domainName; "version"; versionID; "enable"] in
  req <- newJSONRequest c MethodPatch endpoint PayloadNil ;;
  do c req None tt.

(** [CreateRecord] *)
Definition CreateRecord (c : Client) (authZone : string) (versionID : string)
           (record : Record_) : M Record_ :=
  domainName <- try (domainNameOf authZone) ;;
  let endpoint :=
    JoinPath c.(baseURL) ["domain"; domainName; "version"; versionID; "zone"] in
  let payload := PayloadRecord {| Name := record.(Name);
                                  Type_ := record.(Type_);
                                  Priority := DefaultRecordPriority;
                                  TTL := record.(TTL);
                                  Value := record.(Value) |} in
  req <- newJSONRequest c MethodPost endpoint payload ;;
  do c req (Some UnmarshalRecord) zeroRecord.

(** The syntax tree of ["^(A)|(AAAA)|(CNAME)|(MX)|(SRV)|(TXT)$"]: six
    alternatives, of which only the first carries [^] and only the last [$]. *)
Definition lit (s : string) : Go.Regexp := Go.OpCapture (Go.OpLiteral (list_ascii_of_string s)).

Definition allowedTypesRegexp : Go.Regexp :=
  Go.OpAlternate (Go.OpConcat Go.OpBeginText (lit "A"))
 (Go.OpAlternate (lit "AAAA")
 (Go.OpAlternate (lit "CNAME")
 (Go.OpAlternate (lit "MX")
 (Go.OpAlternate (lit "SRV")
                 (Go.OpConcat (lit "TXT") Go.OpEndText))))).

(** The allow-list the pattern is meant to denote. *)
Definition allowedTypes : list string := ["A"; "AAAA"; "CNAME"; "MX"; "SRV"; "TXT"].

(** The [for _, r := range records] loop of [DuplicateZoneVersionRecords]. *)
Fixpoint duplicateEach (c : Client) (authZone : string) (targetVersionUUID : string)
         (records : list Record_) : M unit :=
  match records with
  | [] => ret tt
  | r :: rest =>
      if Go.MatchString allowedTypesRegexp r.(Type_)
      then
        let record := {| Type_ := r.(Type_); Name := r.(Name); Value := r.(Value);
                         TTL := r.(TTL); Priority := 0 |} in
        _ <- CreateRecord c authZone targetVersionUUID record ;;
        duplicateEach c authZone targetVersionUUID rest
      else duplicateEach c authZone targetVersionUUID rest
  end.

(** [DuplicateZoneVersionRecords] *)
Definition DuplicateZoneVersionRecords (c : Client) (authZone : string)
           (sourceVersionUUID : string) (targetVersionUUID : string) : M unit :=
  records <- GetAllRecords c authZone sourceVersionUUID ;;
  duplicateEach c authZone targetVersionUUID records.

End Client.

End Internal.

(** ** Package [scalewaydedibox]: the challenge coordinator *)

Module ScalewayDedibox.
Import Internal.

Definition DefaultTempZoneVersionName : string := "lego_tmp".

(** [type Config struct] *)
Record Config := mkConfig {
  BaseURL : string;
  APIToken : string;
  TempZoneVersionName : string;
  HTTPClient : Internal.HTTPClient;
  PropagationTimeout : Z;
  PollingInterval : Z;
  CfgTTL : Z
}.

(** [dns01.ChallengeInfo], the two fields the provider reads. *)
Record ChallengeInfo := mkChallengeInfo {
  EffectiveFQDN : string;
  InfoValue : string
}.

(** The ACME collaborators: [dns01.GetChallengeInfo] and
    [dns01.FindZoneByFqdn] ([None] when it returns an error). *)
Class DNS01 := {
  GetChallengeInfo : string -> string -> ChallengeInfo;
  FindZoneByFqdn : string -> option string
}.

(** One constructor per [errors.New] / [fmt.Errorf] call site of the file. *)
Inductive ProviderError :=
| ErrNilConfig
| ErrCredentialsMissing
| ErrNewClient (cause : Error)
| ErrFindZone (domainName : string)
| ErrVerifyVersion (name zone : string) (cause : Error)
| ErrVersionExists (name zone : string)
| ErrFindActiveVersion (zone : string) (cause : Error)
| ErrCreateVersion (name zone : string) (cause : Error)
| ErrDuplicateRecords (source target : string) (cause : Error)
| ErrCreateRecord (record version : string) (cause : Error)
| ErrEnableVersion (version : string) (cause : Error)
| ErrFetchVersion (uuid zone : string) (cause : Error)
| ErrNoVersion (uuid zone : string)
| ErrEnableBack (version : string) (cause : Error)
| ErrDeleteVersion (version : string) (cause : Error).





Section Provider.
Context `{Backend} `{DNS01}.

(** [type DNSProvider struct] *)
Record DNSProvider := mkDNSProvider {
  config : Config;
  client : Client;
  activeVersionUUID : string;
  tempVersionUUID : string
}.

(** [NewDNSProviderConfig]; the argument is a pointer, [None] is [nil].
    The second [if err != nil] of the source tests the [err] that was just
    found to be [nil], and is dead. *)
Definition NewDNSProviderConfig (config : option Config) : ProviderError + DNSProvider :=
  match config with
  | None => inl ErrNilConfig
  | Some config =>
      if String.eqb config.(APIToken) "" then inl ErrCredentialsMissing
      else match NewClient config.(APIToken) with
           | inl err => inl (ErrNewClient err)
           | inr client =>
               let client := {| apiToken := client.(apiToken);
                                baseURL := client.(baseURL);
                                HTTPClient_ := config.(HTTPClient) |} in
               inr {| client := client; config := config;
                      activeVersionUUID := ""; tempVersionUUID := "" |}
           end
  end.

(** Computations of the coordinator: over the provider's fields and the
    world. *)
Definition P (A : Type) : Type := Comp (DNSProvider * World) ProviderError A.

(** A client call [v, err := d.client.F(...)] followed by
    [if err != nil { return fmt.Errorf(..., err) }]. *)
Definition call {A : Type} (m : M A) (wrap : Error -> ProviderError) : P A :=
  fun s => match m (snd s) with
           | (Ok a, w') => (Ok a, (fst s, w'))
           | (Err e, w') => (Err (wrap e), (fst s, w'))
           | (Fault p, w') => (Fault p, (fst s, w'))
           end.

Definition this : P DNSProvider := fun s => (Ok (fst s), s).

Definition setActiveVersionUUID (u : string) : P unit :=
  fun s => (Ok tt, ({| config := (fst s).(config); client := (fst s).(client);
                       activeVersionUUID := u;
                       tempVersionUUID := (fst s).(tempVersionUUID) |}, snd s)).

Definition setTempVersionUUID (u : string) : P unit :=
  fun s => (Ok tt, ({| config := (fst s).(config); client := (fst s).(client);
                       activeVersionUUID := (fst s).(activeVersionUUID);
                       tempVersionUUID := u |}, snd s)).

(** [Present] *)
Definition Present (domainName token keyAuth : string) : P unit :=
  let info := GetChallengeInfo domainName keyAuth in
  match FindZoneByFqdn info.(EffectiveFQDN) with
  | None => fail (ErrFindZone domainName)
  | Some authZone =>
      d <- this ;;
      let tmpName := d.(config).(TempZoneVersionName) in
      version <- call (FindZoneVersion d.(client) authZone tmpName)
                      (ErrVerifyVersion tmpName authZone) ;;
      if negb (Version_eqb version zeroVersion)
      then fail (ErrVersionExists tmpName authZone)
      else
        activeZoneVersion <- call (FindActiveZoneVersion d.(client) authZone)
                                  (ErrFindActiveVersion authZone) ;;
        _ <- setActiveVersionUUID activeZoneVersion.(UUIDRef) ;;
        temporaryVersion <- call (CreateZoneVersion d.(client) authZone tmpName)
                                 (ErrCreateVersion tmpName authZone) ;;
        _ <- setTempVersionUUID temporaryVersion.(UUIDRef) ;;
        _ <- call (DuplicateZoneVersionRecords d.(client) authZone
                     activeZoneVersion.(UUIDRef) temporaryVersion.(UUIDRef))
                  (ErrDuplicateRecords activeZoneVersion.(VName) temporaryVersion.(VName)) ;;
        let recordName := Go.Replace1 info.(EffectiveFQDN) ("." ++ authZone) "" in
        let record := {| Type_ := "TXT"; Name := recordName; Value := info.(InfoValue);
                         TTL := d.(config).(CfgTTL); Priority := 0 |} in
        _ <- call (CreateRecord d.(client) authZone temporaryVersion.(UUIDRef) record)
                  (ErrCreateRecord record.(Name) temporaryVersion.(VName)) ;;
        call (EnableZone d.(client) authZone temporaryVersion.(UUIDRef))
             (ErrEnableVersion temporaryVersion.(VName))
  end.

(** [CleanUp] *)
Definition CleanUp (domainName token keyAuth : string) : P unit :=
  let info := GetChallengeInfo domainName keyAuth in
  match FindZoneByFqdn info.(EffectiveFQDN) with
  | None => fail (ErrFindZone domainName)
  | Some authZone =>
      d <- this ;;
      tempVersion <- call (GetZoneVersion d.(client) authZone d.(tempVersionUUID))
                          (ErrFetchVersion d.(tempVersionUUID) authZone) ;;
      if Version_eqb tempVersion zeroVersion
      then fail (ErrNoVersion d.(tempVersionUUID) authZone)
      else
        realVersion <- call (GetZoneVersion d.(client) authZone d.(activeVersionUUID))
                            (ErrFetchVersion d.(activeVersionUUID) authZone) ;;
        if Version_eqb realVersion zeroVersion
        then fail (ErrNoVersion d.(activeVersionUUID) authZone)
        else
          _ <- call (EnableZone d.(client) authZone d.(activeVersionUUID))
                    (ErrEnableBack realVersion.(VName)) ;;
          call (DeleteZoneVersion d.(client) authZone d.(tempVersionUUID))
               (ErrDeleteVersion realVersion.(VName))
  end.

(** [Timeout] *)
Definition Timeout (d : DNSProvider) : Z * Z :=
  (d.(config).(PropagationTimeout), d.(config).(PollingInterval)).

End Provider.

End ScalewayDedibox.

(** ** An in-memory registrar

    Modelled from the spec: the registrar behind the REST endpoints is not
    part of the repository.  This stand-in follows the spec's endpoint table
    and its description of the backend: a created version is new, inactive
    and empty and bears the name of the creation payload; enabling a version
    deactivates every other one; deleting fails for an active or absent
    version.  It plays the part the [httptest] server plays in the
    repository's tests. *)

Module Registrar.
Import Internal ScalewayDedibox.

(** Response bodies, already typed; [BodyGarbage] decodes to nothing. *)
Inductive Body :=
| BodyVersions (vs : list Version)
| BodyVersion (v : Version)
| BodyRecords (rs : list Record_)
| BodyRecord (r : Record_)
| BodyGarbage.

Record State := mkState {
  domain : string;
  versions : list (Version * list Record_);
  counter : nat
}.

Fixpoint tally (n : nat) : string :=
  match n with
  | O => ""
  | S n' => "i" ++ tally n'
  end.

Definition freshUUID (st : State) : string := "tmp-" ++ tally st.(counter).

Definition hasUUID (u : string) (e : Version * list Record_) : bool :=
  String.eqb (fst e).(UUIDRef) u.

Definition setActive (u : string) (e : Version * list Record_) : Version * list Record_ :=
  ({| UUIDRef := (fst e).(UUIDRef); VName := (fst e).(VName);
      CreationDate := (fst e).(CreationDate); DomainRef := (fst e).(DomainRef);
      ZoneRef := (fst e).(ZoneRef); Active := String.eqb (fst e).(UUIDRef) u |}, snd e).

Definition addRecord (u : string) (r : Record_) (e : Version * list Record_)
  : Version * list Record_ :=
  if hasUUID u e then (fst e, (snd e ++ [r])%list) else e.

Definition ok (b : Body) : Response Body := Responded 200 (Some b).
Definition notFound : Response Body := Responded 404 (Some BodyGarbage).
Definition conflict : Response Body := Responded 409 (Some BodyGarbage).

Definition withVersions (st : State) (vs : list (Version * list Record_)) : State :=
  {| domain := st.(domain); versions := vs; counter := st.(counter) |}.

(** Modelled from the spec: the registrar's endpoint table and what the
    backend does to its versions on each call. *)
Definition handle (req : Request) (st : State) : Response Body * State :=
  match req.(ReqURL).(Elem) with
  | [a; d; b] =>
      if String.eqb a "domain" && String.eqb d st.(domain) && String.eqb b "version"
      then match req.(ReqMethod), req.(ReqBody) with
           | MethodGet, _ => (ok (BodyVersions (map fst st.(versions))), st)
           | MethodPost, PayloadVersion n =>
               let v := {| UUIDRef := freshUUID st; VName := n; CreationDate := "";
                           DomainRef := ""; ZoneRef := ""; Active := false |} in
               (ok (BodyVersion v),
                {| domain := st.(domain);
                   versions := (st.(versions) ++ [(v, [])])%list;
                   counter := S st.(counter) |})
           | _, _ => (notFound, st)
           end
      else (notFound, st)
  | [a; d; b; u] =>
      if String.eqb a "domain" && String.eqb d st.(domain) && String.eqb b "version"
      then match req.(ReqMethod), find (hasUUID u) st.(versions) with
           | MethodGet, Some e => (ok (BodyVersion (fst e)), st)
           | MethodDelete, Some e =>
               if (fst e).(Active) then (conflict, st)
               else (ok BodyGarbage,
                     withVersions st (filter (fun e => negb (hasUUID u e)) st.(versions)))
           | _, _ => (notFound, st)
           end
      else (notFound, st)
  | [a; d; b; u; z] =>
      if String.eqb a "domain" && String.eqb d st.(domain) && String.eqb b "version"
      then match req.(ReqMethod), find (hasUUID u) st.(versions) with
           | MethodPatch, Some _ =>
               if String.eqb z "enable"
               then (ok BodyGarbage, withVersions st (map (setActive u) st.(versions)))
               else (notFound, st)
           | MethodGet, Some e =>
               if String.eqb z "zone" then (ok (BodyRecords (snd e)), st)
               else (notFound, st)
           | MethodPost, Some _ =>
               match String.eqb z "zone", req.(ReqBody) with
               | true, PayloadRecord r =>
                   (ok (BodyRecord r), withVersions st (map (addRecord u r) st.(versions)))
               | _, _ => (notFound, st)
               end
           | _, _ => (notFound, st)
           end
      else (notFound, st)
  | _ => (notFound, st)
  end.

#[export] Instance backend : Backend := {|
  Raw := Body;
  Server := State;
  Do := fun _ req st => handle req st;
  NewRequestOK := fun _ _ => true;
  UnmarshalVersions := fun b => match b with BodyVersions vs => Some vs | _ => None end;
  UnmarshalVersion := fun b => match b with BodyVersion v => Some v | _ => None end;
  UnmarshalRecords := fun b => match b with BodyRecords rs => Some rs | _ => None end;
  UnmarshalRecord := fun b => match b with BodyRecord r => Some r | _ => None end
|}.

(** A stand-in for the ACME collaborators: the challenge name is
    [_acme-challenge.<domain>.], the zone is the domain itself. *)
#[export] Instance dns01 : DNS01 := {|
  GetChallengeInfo := fun domainName keyAuth =>
    {| EffectiveFQDN := "_acme-challenge." ++ domainName ++ ".";
       InfoValue := keyAuth |};
  FindZoneByFqdn := fun fqdn =>
    if String.prefix "_acme-challenge." fqdn
    then Some (substring 16 (String.length fqdn - 16) fqdn)
    else None
|}.

(** The registrar holds a version named [n]. *)
Definition named (n : string) (st : State) : Prop :=
  exists e, In e st.(versions) /\ (fst e).(VName) = n.

(** The registrar serves the domain [dn] and holds a version named [n]. *)
Definition serves (dn n : string) (st : State) : Prop :=
  st.(domain) = dn /\ named n st.

(** *** Test data *)

Definition version (uuid name : string) (active : bool) : Version :=
  {| UUIDRef := uuid; VName := name; CreationDate := "2025-01-01";
     DomainRef := "/api/v1/domain/example.com"; ZoneRef := ""; Active := active |}.

Definition rec (type name value : string) : Record_ :=
  {| Type_ := type; Name := name; Value := value; TTL := 86400; Priority := 0 |}.

Definition start (vs : list (Version * list Record_)) : World :=
  {| server := {| domain := "example.com"; versions := vs; counter := 0 |};
     sent := [] |}.

Definition testClient : Client :=
  {| apiToken := "token"; baseURL := DefaultBaseURL;
     HTTPClient_ := {| Internal.Timeout := 5 * Second |} |}.

Definition testConfig (label : string) : Config :=
  {| BaseURL := ""; APIToken := "token"; TempZoneVersionName := label;
     HTTPClient := {| Internal.Timeout := 10 * Second |};
     PropagationTimeout := 60 * Second; PollingInterval := 2 * Second;
     CfgTTL := 120 |}.

Definition testProvider (label : string) : DNSProvider :=
  {| config := testConfig label; client := testClient;
     activeVersionUUID := ""; tempVersionUUID := "" |}.

(** A zone whose one version is active and holds one record each of the
    types A, NS, TXT and SOA, and an empty inactive version to copy into. *)
Definition zoneFour : World :=
  start [(version "v1" "main" true,
          [rec "A" "www" "192.0.2.1"; rec "NS" "@" "ns1.example.net.";
           rec "TXT" "note" "hello"; rec "SOA" "@" "ns1 hostmaster 1"]);
         (version "v2" "copy" false, [])].

(** The same with a record of type AFSDB, which is not on the allow-list. *)
Definition zoneStray : World :=
  start [(version "v1" "main" true,
          [rec "A" "www" "192.0.2.1"; rec "AFSDB" "afs" "1 afsdb.example.com."]);
         (version "v2" "copy" false, [])].

(** A zone none of whose versions is active. *)
Definition zoneInactive : World := start [(version "v1" "main" false, [])].

(** A zone with one active version and no temporary version yet. *)
Definition zoneLive : World :=
  start [(version "v1" "main" true, [rec "A" "www" "192.0.2.1"])].

(** The records of the lookup example, and the record that carries a
    version UUID. *)
Definition zoneLookup : World :=
  start [(version "v1" "main" true,
          [rec "A" "test01" "127.0.0.1"; rec "TXT" "test04" "text";
           rec "A" "test04" "127.0.0.1"; rec "TXT" "lego" "active_version:thisone"])].

(** A configuration that supplies a base URL. *)
Definition configWithBaseURL : Config :=
  {| BaseURL := "http://127.0.0.1:8080"; APIToken := "token";
     TempZoneVersionName := "lego_tmp";
     HTTPClient := {| Internal.Timeout := 10 * Second |};
     PropagationTimeout := 60 * Second; PollingInterval := 2 * Second;
     CfgTTL := 120 |}.

(** The world and provider after a first [Present] for [example.com]. *)
Definition afterPresent (label : string) : DNSProvider * World :=
  snd (Present "example.com" "token" "keyAuth" (testProvider label, zoneLive)).

End Registrar.

(** ** Vocabulary of the statements *)

Module Trace.
Import Internal ScalewayDedibox.

Section Trace.
Context `{Backend} `{DNS01}.

(** The requests a client computation hands to [HTTPClient.Do] when run
    in [w], oldest first. *)
Definition sentBy {A : Type} (m : M A) (w : World) : list Request :=
  skipn (List.length w.(sent)) (snd (m w)).(sent).

(** The same for a computation of the coordinator. *)
Definition sentByP {A : Type} (m : P A) (s : DNSProvider * World) : list Request :=
  skipn (List.length (snd s).(sent)) (snd (snd (m s))).(sent).

(** Building one request and performing it: the common tail of the seven
    operations that talk to the registrar. *)
Definition exchange {A : Type} (c : Client) (method : Method) (elem : list string)
           (payload : Payload) (result : option (Raw -> option A)) (zero : A) : M A :=
  req <- newJSONRequest c method (JoinPath c.(baseURL) elem) payload ;;
  do c req result zero.

(** The request [newJSONRequest] builds. *)
Definition requestFor (c : Client) (method : Method) (elem : list string)
           (payload : Payload) : Request :=
  mkRequest method (JoinPath c.(baseURL) elem) payload
    (("Accept", "application/json")
     :: ("Authorization", "Bearer " ++ c.(apiToken))
     :: match payload with
        | PayloadNil => []
        | _ => [("Content-Type", "application/json")]
        end).


(** The operations of [Client] that take a zone name, with their other
    arguments. *)
Inductive Operation :=
| CallListAllVersions
| CallFindActiveZoneVersion
| CallFindZoneVersion (versionName : string)
| CallGetZoneVersion (versionUUID : string)
| CallCreateZoneVersion (versionName : string)
| CallDeleteZoneVersion (versionUUID : string)
| CallGetAllRecords (versionUUID : string)
| CallGetRecord (versionUUID recordName recordType : string)
| CallReadVersionUUID (versionUUID : string)
| CallEnableZone (versionID : string)
| CallCreateRecord (versionID : string) (record : Record_)
| CallDuplicateZoneVersionRecords (sourceVersionUUID targetVersionUUID : string).

Definition discard {A : Type} (m : M A) : M unit := _ <- m ;; ret tt.

Definition run (op : Operation) (c : Client) (authZone : string) : M unit :=
  match op with
  | CallListAllVersions => discard (ListAllVersions c authZone)
  | CallFindActiveZoneVersion => discard (FindActiveZoneVersion c authZone)
  | CallFindZoneVersion n => discard (FindZoneVersion c authZone n)
  | CallGetZoneVersion u => discard (GetZoneVersion c authZone u)
  | CallCreateZoneVersion n => discard (CreateZoneVersion c authZone n)
  | CallDeleteZoneVersion u => DeleteZoneVersion c authZone u
  | CallGetAllRecords u => discard (GetAllRecords c authZone u)
  | CallGetRecord u n t => discard (GetRecord c authZone u n t)
  | CallReadVersionUUID u => discard (ReadVersionUUID c authZone u)
  | CallEnableZone v => EnableZone c authZone v
  | CallCreateRecord v r => discard (CreateRecord c authZone v r)
  | CallDuplicateZoneVersionRecords a b => DuplicateZoneVersionRecords c authZone a b
  end.

(** Every request a computation sends satisfies [Q], and the requests
    already sent stay in place. *)
Definition emits {A : Type} (Q : Request -> Prop) (m : M A) : Prop :=
  forall w, exists l, (snd (m w)).(sent) = (w.(sent) ++ l)%list /\ Forall Q l.

(** A property of the registrar's state that a computation maintains. *)
Definition keeps {A : Type} (I : Server -> Prop) (m : M A) : Prop :=
  forall w, I w.(server) -> I (snd (m w)).(server).

(** The record [GetRecord] looks for. *)
Definition isRecord (recordName recordType : string) (r : Record_) : bool :=
  String.eqb r.(Name) recordName && String.eqb r.(Type_) recordType.

(** The payload [CreateRecord] posts for [record]. *)
Definition posted (record : Record_) : Record_ :=
  {| Type_ := record.(Type_); Name := record.(Name); Value := record.(Value);
     TTL := record.(TTL); Priority := DefaultRecordPriority |}.

(** The operations that only look something up. *)
Definition readOnly (op : Operation) : bool :=
  match op with
  | CallListAllVersions | CallFindActiveZoneVersion | CallFindZoneVersion _
  | CallGetZoneVersion _ | CallGetAllRecords _ | CallGetRecord _ _ _
  | CallReadVersionUUID _ => true
  | _ => false
  end.

(** The path elements a look-up asks for, below the domain [d]. *)
Definition readPath (op : Operation) (d : string) : list string :=
  match op with
  | CallGetZoneVersion u => ["domain"; d; "version"; u]
  | CallGetAllRecords u | CallGetRecord u _ _ | CallReadVersionUUID u =>
      ["domain"; d; "version"; u; "zone"]
  | _ => ["domain"; d; "version"]
  end.

(** The headers of a request with body [payload] built by the client [c]. *)
Definition headersFor (c : Client) (payload : Payload) : list (string * string) :=
  ("Accept", "application/json")
  :: ("Authorization", "Bearer " ++ c.(apiToken))
  :: match payload with
     | PayloadNil => []
     | _ => [("Content-Type", "application/json")]
     end.


(** The records [DuplicateZoneVersionRecords] selects from a listing. *)
Definition selected (records : list Record_) : list Record_ :=
  filter (fun r => Go.MatchString allowedTypesRegexp r.(Type_)) records.



(** The requests of a complete [CleanUp], in order. *)
Definition cleanupRequests (c : Client) (d activeUUID tempUUID : string) : list Request :=
  [requestFor c MethodGet ["domain"; d; "version"; tempUUID] PayloadNil;
   requestFor c MethodGet ["domain"; d; "version"; activeUUID] PayloadNil;
   requestFor c MethodPatch ["domain"; d; "version"; activeUUID; "enable"] PayloadNil;
   requestFor c MethodDelete ["domain"; d; "version"; tempUUID] PayloadNil].

(** What [CleanUp] sets out to send for a domain, given the provider's
    fields: nothing when the zone cannot be found or its name is empty. *)
Definition cleanupPlan (d : DNSProvider) (domainName keyAuth : string) : list Request :=
  match FindZoneByFqdn (GetChallengeInfo domainName keyAuth).(EffectiveFQDN) with
  | Some authZone =>
      match domainNameOf authZone with
      | inr dom => cleanupRequests d.(client) dom d.(activeVersionUUID) d.(tempVersionUUID)
      | inl _ => []
      end
  | None => []
  end.

(** A computation of the coordinator keeps the provider's configuration
    and client, keeps what was already sent, and sends only requests that
    satisfy [Q]. *)
Definition steady {A : Type} (Q : Request -> Prop) (m : P A) : Prop :=
  forall d w,
    (fst (snd (m (d, w)))).(config) = d.(config)
    /\ (fst (snd (m (d, w)))).(client) = d.(client)
    /\ exists l, (snd (snd (m (d, w)))).(sent) = (w.(sent) ++ l)%list /\ Forall Q l.


End Trace.

End Trace.

(** * Properties *)

Unset Implicit Arguments.

(** ** The Go pieces *)

Module GoFacts.
Import Go.

Section IndexFunc.
Variable A : Type.
Variable f : A -> bool.

Lemma IndexFunc_range (s : list A) :
  -1 <= IndexFunc s f < Z.of_nat (List.length s).
Proof.
  induction s as [|x s IH]; cbn [IndexFunc List.length].
  - lia.
  - destruct (f x); [lia|].
    destruct (IndexFunc s f =? -1) eqn:E; lia.
Qed.

Lemma IndexFunc_none (s : list A) :
  find f s = None -> IndexFunc s f = -1.
Proof.
  induction s as [|x s IH]; cbn [IndexFunc find]; [reflexivity|].
  destruct (f x); [discriminate|].
  intros Hn. rewrite (IH Hn). reflexivity.
Qed.

Lemma IndexFunc_some (s : list A) (x : A) :
  find f s = Some x ->
  0 <= IndexFunc s f /\ nth_error s (Z.to_nat (IndexFunc s f)) = Some x.
Proof.
  induction s as [|y s IH]; cbn [IndexFunc find]; [discriminate|].
  destruct (f y).
  - intros [= ->]. split; [lia|reflexivity].
  - intros Hs. destruct (IH Hs) as [Hge Hnth].
    destruct (IndexFunc s f =? -1) eqn:E; [lia|].
    split; [lia|].
    replace (Z.to_nat (IndexFunc s f + 1)) with (S (Z.to_nat (IndexFunc s f))) by lia.
    exact Hnth.
Qed.

(** Indexing at the result of [IndexFunc] without a guard. *)
Lemma index_IndexFunc (s : list A) :
  index s (IndexFunc s f) =
  match find f s with
  | Some x => inr x
  | None => inl (IndexOutOfRange (-1) (Z.of_nat (List.length s)))
  end.
Proof.
  unfold index. destruct (find f s) as [x|] eqn:E.
  - destruct (IndexFunc_some _ _ E) as [Hge Hnth].
    pose proof (IndexFunc_range s) as Hr.
    replace (0 <=? IndexFunc s f) with true by lia.
    replace (IndexFunc s f <? Z.of_nat (List.length s)) with true by lia.
    cbn. rewrite Hnth. reflexivity.
  - rewrite (IndexFunc_none _ E). reflexivity.
Qed.

(** The guard [idx > -1]. *)
Lemma IndexFunc_guard (s : list A) :
  (IndexFunc s f >? -1) = match find f s with Some _ => true | None => false end.
Proof.
  destruct (find f s) as [x|] eqn:E.
  - destruct (IndexFunc_some _ _ E). lia.
  - rewrite (IndexFunc_none _ E). reflexivity.
Qed.

(** [find] picks the first element that satisfies [f]. *)
Lemma find_first (pre post : list A) (x : A) :
  (forall y, In y pre -> f y = false) -> f x = true ->
  find f (pre ++ x :: post) = Some x.
Proof.
  intros Hpre Hx. induction pre as [|y pre IH]; cbn.
  - rewrite Hx. reflexivity.
  - rewrite (Hpre y (or_introl eq_refl)). apply IH.
    intros z Hz. apply Hpre. right. exact Hz.
Qed.

Lemma find_none_iff (s : list A) :
  find f s = None <-> (forall y, In y s -> f y = false).
Proof.
  split.
  - intros Hn y Hy. exact (find_none f s Hn y Hy).
  - induction s as [|y s IH]; cbn; [reflexivity|].
    intros Hall. rewrite (Hall y (or_introl eq_refl)).
    apply IH. intros z Hz. apply Hall. right. exact Hz.
Qed.

End IndexFunc.

(** *** Strings *)

Ltac bool_lia :=
  symmetry; first [apply Z.leb_le; lia | apply Z.ltb_lt; lia | reflexivity].

Lemma substring_all (s : string) : substring 0 (String.length s) s = s.
Proof. induction s as [|c s IH]; cbn; [reflexivity|]. rewrite IH. reflexivity. Qed.


Lemma substring_skip (s t : string) :
  substring (String.length s) (String.length t) (s ++ t) = t.
Proof.
  induction s as [|c s IH]; cbn.
  - apply substring_all.
  - exact IH.
Qed.

Lemma length_append (s t : string) :
  String.length (s ++ t) = (String.length s + String.length t)%nat.
Proof. induction s as [|c s IH]; cbn; [reflexivity|]. rewrite IH. reflexivity. Qed.

Lemma prefix_split (p s : string) :
  String.prefix p s = true -> exists rest, s = p ++ rest.
Proof.
  revert s. induction p as [|a p IH]; intros s; cbn.
  - intros _. exists s. reflexivity.
  - destruct s as [|b s]; cbn; [discriminate|].
    destruct (Ascii.ascii_dec a b) as [->|]; [|discriminate].
    intros Hp. destruct (IH _ Hp) as [rest ->]. exists rest. reflexivity.
Qed.

Lemma prefix_append (p rest : string) : String.prefix p (p ++ rest) = true.
Proof.
  induction p as [|a p IH]; cbn.
  - destruct rest; reflexivity.
  - destruct (Ascii.ascii_dec a a); [exact IH|congruence].
Qed.

(** [s[len(p):len(s)]] after [strings.HasPrefix(s, p)]: the rest of [s]. *)
Lemma slice_after_prefix (p rest : string) :
  slice (p ++ rest) (len p) (len (p ++ rest)) = inr rest.
Proof.
  unfold slice, len. rewrite length_append.
  replace (0 <=? Z.of_nat (String.length p)) with true by bool_lia.
  replace (Z.of_nat (String.length p) <=? Z.of_nat (String.length p + String.length rest))
    with true by bool_lia.
  rewrite Z.leb_refl. cbn [andb].
  rewrite Nat2Z.id.
  replace (Z.to_nat (Z.of_nat (String.length p + String.length rest) - Z.of_nat (String.length p)))
    with (String.length rest) by lia.
  rewrite substring_skip. reflexivity.
Qed.

(** [s[0:len(s)-1]]: all but the last byte, a fault on the empty string. *)
Lemma slice_init_empty : slice "" 0 (len "" - 1) = inl (SliceBoundsOutOfRange 0 (-1) 0).
Proof. reflexivity. Qed.


End GoFacts.

(** ** The pattern of [DuplicateZoneVersionRecords] *)

Module RegexpFacts.
Import Go Internal.

Lemma stripPrefix_Some (w s s' : list ascii) :
  stripPrefix w s = Some s' <-> s = (w ++ s')%list.
Proof.
  revert s. induction w as [|c w IH]; intros s; cbn.
  - split; [intros [= ->]; reflexivity | intros ->; reflexivity].
  - destruct s as [|x s]; [split; discriminate|].
    destruct (Ascii.eqb x c) eqn:E.
    + apply Ascii.eqb_eq in E. subst x. rewrite IH.
      split; [intros ->; reflexivity | intros [= ->]; reflexivity].
    + split; [discriminate|].
      intros [= -> _]. rewrite Ascii.eqb_refl in E. discriminate.
Qed.

Lemma stripPrefix_startsWith (w s : list ascii) :
  (exists s', stripPrefix w s = Some s') <-> startsWith w s.
Proof.
  unfold startsWith. split; intros [s' Hs]; exists s'; apply stripPrefix_Some; exact Hs.
Qed.

(** A search succeeds exactly when the pattern matches at some offset;
    only offset 0 of a search that began at the start of the text counts
    as the beginning of the text. *)
Lemma searchFrom_true (r : Regexp) (s : list ascii) : forall b,
  searchFrom r b s = true <->
  exists pre post, s = (pre ++ post)%list /\
    matchHere r (b && match pre with [] => true | _ :: _ => false end) post anything = true.
Proof.
  induction s as [|x s IH]; intros b; cbn [searchFrom].
  - rewrite orb_false_r. split.
    + intros Hm. exists [], []. rewrite andb_true_r. split; [reflexivity|exact Hm].
    + intros (pre & post & Heq & Hm).
      symmetry in Heq. apply app_eq_nil in Heq. destruct Heq as [-> ->].
      rewrite andb_true_r in Hm. exact Hm.
  - rewrite orb_true_iff, IH. split.
    + intros [Hm | (pre & post & -> & Hm)].
      * exists [], (x :: s). rewrite andb_true_r. split; [reflexivity|exact Hm].
      * exists (x :: pre), post. rewrite andb_false_r. split; [reflexivity|exact Hm].
    + intros (pre & post & Heq & Hm). destruct pre as [|y pre].
      * left. cbn in Heq. subst post. rewrite andb_true_r in Hm. exact Hm.
      * right. injection Heq as -> ->. exists pre, post.
        rewrite andb_false_r in Hm. split; [reflexivity|exact Hm].
Qed.

(** A bracketed literal word matches when the input starts with it. *)
Lemma matchHere_lit (w : string) (b : bool) (s : list ascii) (k : bool -> list ascii -> bool) :
  w <> "" ->
  matchHere (lit w) b s k =
  match stripPrefix (list_ascii_of_string w) s with
  | Some s' => k false s'
  | None => false
  end.
Proof.
  intros Hw. unfold lit. cbn [matchHere].
  destruct (stripPrefix (list_ascii_of_string w) s); [|reflexivity].
  destruct w; [congruence|]. cbn. rewrite andb_false_r. reflexivity.
Qed.

(** What the program's pattern matches at one position. *)
Lemma allowedTypesRegexp_here (b : bool) (s : list ascii) :
  matchHere allowedTypesRegexp b s anything = true <->
  (b = true /\ startsWith (word "A") s)
  \/ startsWith (word "AAAA") s
  \/ startsWith (word "CNAME") s
  \/ startsWith (word "MX") s
  \/ startsWith (word "SRV") s
  \/ s = word "TXT".
Proof.
  unfold allowedTypesRegexp. cbn [matchHere].
  rewrite !matchHere_lit by discriminate.
  rewrite !orb_true_iff, andb_true_iff.
  rewrite <- !stripPrefix_startsWith.
  assert (Hsome : forall w, (match stripPrefix w s with
                             | Some s' => anything false s'
                             | None => false
                             end = true) <-> exists s', stripPrefix w s = Some s').
  { intros w. destruct (stripPrefix w s) as [s'|].
    - split; [intros _; exists s'; reflexivity | reflexivity].
    - split; [discriminate | intros [s' Hs]; discriminate]. }
  rewrite !Hsome.
  assert (Hend : (match stripPrefix (word "TXT") s with
                  | Some s' => matchHere OpEndText false s' anything
                  | None => false
                  end = true) <-> s = word "TXT").
  { destruct (stripPrefix (word "TXT") s) as [s'|] eqn:E.
    - apply stripPrefix_Some in E. subst s. destruct s' as [|y s']; cbn.
      + split; reflexivity.
      + split; [discriminate|]. intros Heq. discriminate Heq.
    - split; [discriminate|]. intros ->. cbn in E. discriminate. }
  rewrite Hend. tauto.
Qed.

End RegexpFacts.

(** ** The client *)

Module ClientFacts.
Import Go Internal Trace GoFacts.

Section ClientFacts.
Context `{Backend}.

(** *** Requests sent *)

Lemma sentBy_extends (A : Type) (m : M A) (w : World) (l : list Request) :
  (snd (m w)).(sent) = (w.(sent) ++ l)%list -> sentBy m w = l.
Proof.
  intros Hs. unfold sentBy. rewrite Hs.
  rewrite skipn_app, skipn_all, Nat.sub_diag. reflexivity.
Qed.

Lemma emits_sentBy (A : Type) (Q : Request -> Prop) (m : M A) (w : World) :
  emits Q m -> Forall Q (sentBy m w).
Proof.
  intros Hm. destruct (Hm w) as (l & Hl & HQ).
  rewrite (sentBy_extends _ _ _ _ Hl). exact HQ.
Qed.

Lemma emits_ret (A : Type) (Q : Request -> Prop) (a : A) : emits Q (ret a).
Proof. intros w. exists []. cbn. rewrite app_nil_r. split; [reflexivity|constructor]. Qed.

Lemma emits_fail (A : Type) (Q : Request -> Prop) (e : Error) : emits Q (@fail _ _ A e).
Proof. intros w. exists []. cbn. rewrite app_nil_r. split; [reflexivity|constructor]. Qed.

Lemma emits_try (A : Type) (Q : Request -> Prop) (x : Panic + A) : emits Q (try x).
Proof.
  intros w. exists []. unfold try. destruct x; cbn; rewrite app_nil_r;
    (split; [reflexivity|constructor]).
Qed.

Lemma emits_bind (A B : Type) (Q : Request -> Prop) (m : M A) (k : A -> M B) :
  emits Q m -> (forall a, emits Q (k a)) -> emits Q (bind m k).
Proof.
  intros Hm Hk w. destruct (Hm w) as (l1 & Hl1 & HQ1). unfold bind.
  destruct (m w) as [[a|e|p] w1]; cbn in Hl1.
  - destruct (Hk a w1) as (l2 & Hl2 & HQ2). exists (l1 ++ l2)%list.
    rewrite Hl2, Hl1, app_assoc. split; [reflexivity|]. apply Forall_app; split; assumption.
  - exists l1. split; assumption.
  - exists l1. split; assumption.
Qed.

Lemma emits_bind_try (A B : Type) (Q : Request -> Prop) (x : Panic + A) (k : A -> M B) :
  (forall a, x = inr a -> emits Q (k a)) -> emits Q (bind (try x) k).
Proof.
  intros Hk w. unfold bind, try. destruct x as [p|a].
  - exists []. cbn. rewrite app_nil_r. split; [reflexivity|constructor].
  - exact (Hk a eq_refl w).
Qed.

Lemma exchange_run (A : Type) (c : Client) (method : Method) (elem : list string)
      (payload : Payload) (result : option (Raw -> option A)) (zero : A) (w : World) :
  exchange c method elem payload result zero w =
  if NewRequestOK method (JoinPath c.(baseURL) elem)
  then do c (requestFor c method elem payload) result zero w
  else (Err (ErrCreateRequest method (JoinPath c.(baseURL) elem)), w).
Proof.
  unfold exchange, bind, newJSONRequest, requestFor.
  destruct (NewRequestOK method (JoinPath c.(baseURL) elem)); [|reflexivity].
  destruct payload; reflexivity.
Qed.

Lemma do_sent (A : Type) (c : Client) (req : Request)
      (result : option (Raw -> option A)) (zero : A) (w : World) :
  (snd (do c req result zero w)).(sent) = (w.(sent) ++ [req])%list.
Proof.
  unfold do. destruct (Do c.(HTTPClient_) req w.(server)) as [resp srv].
  destruct resp as [|status body]; [reflexivity|].
  destruct (negb (Z.quot status 100 =? 2)); [reflexivity|].
  destruct result as [unmarshal|]; [|reflexivity].
  destruct body as [raw|]; [|reflexivity].
  destruct (unmarshal raw); reflexivity.
Qed.

Lemma sentBy_exchange (A : Type) (c : Client) (method : Method) (elem : list string)
      (payload : Payload) (result : option (Raw -> option A)) (zero : A) (w : World) :
  sentBy (exchange c method elem payload result zero) w =
  if NewRequestOK method (JoinPath c.(baseURL) elem)
  then [requestFor c method elem payload] else [].
Proof.
  apply sentBy_extends. rewrite exchange_run.
  destruct (NewRequestOK method (JoinPath c.(baseURL) elem)).
  - apply do_sent.
  - cbn. rewrite app_nil_r. reflexivity.
Qed.

Lemma emits_exchange (A : Type) (Q : Request -> Prop) (c : Client) (method : Method)
      (elem : list string) (payload : Payload) (result : option (Raw -> option A))
      (zero : A) :
  Q (requestFor c method elem payload) ->
  emits Q (exchange c method elem payload result zero).
Proof.
  intros HQ w. rewrite exchange_run.
  destruct (NewRequestOK method (JoinPath c.(baseURL) elem)).
  - exists [requestFor c method elem payload]. split; [apply do_sent|].
    constructor; [exact HQ|constructor].
  - exists []. cbn. rewrite app_nil_r. split; [reflexivity|constructor].
Qed.

Lemma sentBy_bind_try (A B : Type) (x : Panic + A) (k : A -> M B) (w : World) :
  sentBy (bind (try x) k) w =
  match x with
  | inr a => sentBy (k a) w
  | inl _ => []
  end.
Proof.
  unfold sentBy, bind, try. destruct x as [p|a]; cbn.
  - apply skipn_all.
  - reflexivity.
Qed.

End ClientFacts.

End ClientFacts.

(** ** The zone name and the request path *)

Module ZoneName.
Import Go Internal Trace GoFacts ClientFacts.

Section ZoneName.
Context `{Backend}.

(** Each of the seven operations that talk to the registrar slices the
    zone name and then performs one exchange. *)
Lemma ListAllVersions_run (c : Client) (authZone : string) :
  ListAllVersions c authZone =
  bind (try (domainNameOf authZone)) (fun d =>
    exchange c MethodGet ["domain"; d; "version"] PayloadNil (Some UnmarshalVersions) []).
Proof. reflexivity. Qed.

Lemma GetZoneVersion_run (c : Client) (authZone versionUUID : string) :
  GetZoneVersion c authZone versionUUID =
  bind (try (domainNameOf authZone)) (fun d =>
    exchange c MethodGet ["domain"; d; "version"; versionUUID] PayloadNil
             (Some UnmarshalVersion) zeroVersion).
Proof. reflexivity. Qed.

Lemma CreateZoneVersion_run (c : Client) (authZone versionName : string) :
  CreateZoneVersion c authZone versionName =
  bind (try (domainNameOf authZone)) (fun d =>
    exchange c MethodPost ["domain"; d; "version"] (PayloadVersion "lego_tmp")
             (Some UnmarshalVersion) zeroVersion).
Proof. reflexivity. Qed.

Lemma DeleteZoneVersion_run (c : Client) (authZone versionUUID : string) :
  DeleteZoneVersion c authZone versionUUID =
  bind (try (domainNameOf authZone)) (fun d =>
    exchange c MethodDelete ["domain"; d; "version"; versionUUID] PayloadNil None tt).
Proof. reflexivity. Qed.

Lemma GetAllRecords_run (c : Client) (authZone versionUUID : string) :
  GetAllRecords c authZone versionUUID =
  bind (try (domainNameOf authZone)) (fun d =>
    exchange c MethodGet ["domain"; d; "version"; versionUUID; "zone"] PayloadNil
             (Some UnmarshalRecords) []).
Proof. reflexivity. Qed.

Lemma EnableZone_run (c : Client) (authZone versionID : string) :
  EnableZone c authZone versionID =
  bind (try (domainNameOf authZone)) (fun d =>
    exchange c MethodPatch ["domain"; d; "version"; versionID; "enable"] PayloadNil None tt).
Proof. reflexivity. Qed.

Lemma CreateRecord_run (c : Client) (authZone versionID : string) (record : Record_) :
  CreateRecord c authZone versionID record =
  bind (try (domainNameOf authZone)) (fun d =>
    exchange c MethodPost ["domain"; d; "version"; versionID; "zone"]
             (PayloadRecord (posted record)) (Some UnmarshalRecord) zeroRecord).
Proof. reflexivity. Qed.

Section Through.
Variables (c : Client) (authZone d : string) (Q : Request -> Prop).
Hypothesis Hd : domainNameOf authZone = inr d.
Hypothesis HQ : forall method rest payload,
    Q (requestFor c method ("domain" :: d :: rest) payload).

Ltac one_exchange :=
  apply emits_bind_try; intros ? Hd';
  rewrite Hd in Hd'; injection Hd' as <-;
  apply emits_exchange; apply HQ.

Lemma through_ListAllVersions : emits Q (ListAllVersions c authZone).
Proof. rewrite ListAllVersions_run. one_exchange. Qed.

Lemma through_GetZoneVersion u : emits Q (GetZoneVersion c authZone u).
Proof. rewrite GetZoneVersion_run. one_exchange. Qed.

Lemma through_CreateZoneVersion n : emits Q (CreateZoneVersion c authZone n).
Proof. rewrite CreateZoneVersion_run. one_exchange. Qed.

Lemma through_DeleteZoneVersion u : emits Q (DeleteZoneVersion c authZone u).
Proof. rewrite DeleteZoneVersion_run. one_exchange. Qed.

Lemma through_GetAllRecords u : emits Q (GetAllRecords c authZone u).
Proof. rewrite GetAllRecords_run. one_exchange. Qed.

Lemma through_EnableZone v : emits Q (EnableZone c authZone v).
Proof. rewrite EnableZone_run. one_exchange. Qed.

Lemma through_CreateRecord v r : emits Q (CreateRecord c authZone v r).
Proof. rewrite CreateRecord_run. one_exchange. Qed.

Ltac after_lookup :=
  intros ?;
  repeat match goal with
         | |- emits _ (if ?b then _ else _) => destruct b
         | |- emits _ (bind (try _) _) => apply emits_bind_try; intros ? _
         | |- emits _ (ret _) => apply emits_ret
         end.

Lemma through_FindActiveZoneVersion :
  emits Q (FindActiveZoneVersion c authZone).
Proof.
  unfold FindActiveZoneVersion.
  apply emits_bind; [apply through_ListAllVersions | after_lookup].
Qed.

Lemma through_FindZoneVersion n : emits Q (FindZoneVersion c authZone n).
Proof.
  unfold FindZoneVersion.
  apply emits_bind; [apply through_ListAllVersions | after_lookup].
Qed.

Lemma through_GetRecord u n t : emits Q (GetRecord c authZone u n t).
Proof.
  unfold GetRecord.
  apply emits_bind; [apply through_GetAllRecords | after_lookup].
Qed.

Lemma through_ReadVersionUUID u : emits Q (ReadVersionUUID c authZone u).
Proof.
  unfold ReadVersionUUID.
  apply emits_bind; [apply through_GetRecord | after_lookup].
Qed.

Lemma through_duplicateEach t rs : emits Q (duplicateEach c authZone t rs).
Proof.
  induction rs as [|r rs IH]; cbn [duplicateEach].
  - apply emits_ret.
  - destruct (MatchString allowedTypesRegexp r.(Type_)); [|exact IH].
    apply emits_bind; [apply through_CreateRecord | intros _; exact IH].
Qed.

Lemma through_DuplicateZoneVersionRecords a b :
  emits Q (DuplicateZoneVersionRecords c authZone a b).
Proof.
  unfold DuplicateZoneVersionRecords.
  apply emits_bind; [apply through_GetAllRecords | intros rs; apply through_duplicateEach].
Qed.

Lemma through_run (op : Operation) : emits Q (run op c authZone).
Proof.
  destruct op; cbn [run]; unfold discard;
    try (apply emits_bind; [|intros ?; apply emits_ret]).
  - apply through_ListAllVersions.
  - apply through_FindActiveZoneVersion.
  - apply through_FindZoneVersion.
  - apply through_GetZoneVersion.
  - apply through_CreateZoneVersion.
  - apply through_DeleteZoneVersion.
  - apply through_GetAllRecords.
  - apply through_GetRecord.
  - apply through_ReadVersionUUID.
  - apply through_EnableZone.
  - apply through_CreateRecord.
  - apply through_DuplicateZoneVersionRecords.
Qed.

End Through.

(** Without a domain name nothing is sent: the slice faults first. *)
Lemma run_faults (op : Operation) (c : Client) (authZone : string) (p : Panic) (w : World) :
  domainNameOf authZone = inl p -> run op c authZone w = (Fault p, w).
Proof.
  intros Hp.
  destruct op; cbn [run];
    unfold discard, FindActiveZoneVersion, FindZoneVersion, ReadVersionUUID, GetRecord,
      DuplicateZoneVersionRecords;
    rewrite ?ListAllVersions_run, ?GetZoneVersion_run, ?CreateZoneVersion_run,
      ?DeleteZoneVersion_run, ?GetAllRecords_run, ?EnableZone_run, ?CreateRecord_run;
    unfold bind, try; rewrite Hp; reflexivity.
Qed.

(** A property of every request the client can build holds of every
    request an operation sends. *)
Lemma emits_run (op : Operation) (c : Client) (authZone : string) (Q : Request -> Prop) :
  (forall method elem payload, Q (requestFor c method elem payload)) ->
  emits Q (run op c authZone).
Proof.
  intros HQ. destruct (domainNameOf authZone) as [p|d] eqn:Hd.
  - intros w. rewrite (run_faults op c authZone p w Hd). exists []. cbn.
    rewrite app_nil_r. split; [reflexivity|constructor].
  - apply (through_run c authZone d Q Hd). intros method rest payload. apply HQ.
Qed.


End ZoneName.

End ZoneName.

(** ** Payloads and lookups *)

Module ClientSpec.
Import Go Internal Trace GoFacts ClientFacts ZoneName.

Section ClientSpec.
Context `{Backend}.

(** C5.  Whatever [versionName] is, the body [CreateZoneVersion] posts is
    the creation payload with name ["lego_tmp"]: running the operation is
    the same for every [versionName], and the bodies of the requests it
    sends are exactly that one payload (none when the zone name is empty or
    the request cannot be built). *)
Theorem CreateZoneVersion_payload_is_lego_tmp
        (c : Client) (authZone versionName : string) (w : World) :
  (forall versionName',
      CreateZoneVersion c authZone versionName w
      = CreateZoneVersion c authZone versionName' w)
  /\ map ReqBody (sentBy (CreateZoneVersion c authZone versionName) w) =
     match domainNameOf authZone with
     | inr domainName =>
         if NewRequestOK MethodPost
              (JoinPath c.(baseURL) ["domain"; domainName; "version"])
         then [PayloadVersion "lego_tmp"] else []
     | inl _ => []
     end.
Proof.
  split; [reflexivity|].
  rewrite CreateZoneVersion_run, sentBy_bind_try.
  destruct (domainNameOf authZone) as [p|d]; [reflexivity|].
  rewrite sentBy_exchange.
  destruct (NewRequestOK _ _); reflexivity.
Qed.

(** C6.  The body [CreateRecord] posts for [record] is the record
    [posted record], whose priority is the default 12 whatever the
    priority of [record] is, and whose name, type, ttl and value are
    those of [record]. *)
Theorem CreateRecord_payload_priority
        (c : Client) (authZone versionID : string) (record : Record_) (w : World) :
  map ReqBody (sentBy (CreateRecord c authZone versionID record) w) =
  match domainNameOf authZone with
  | inr domainName =>
      if NewRequestOK MethodPost
           (JoinPath c.(baseURL) ["domain"; domainName; "version"; versionID; "zone"])
      then [PayloadRecord (posted record)] else []
  | inl _ => []
  end
  /\ (posted record).(Priority) = 12
  /\ (posted record).(Name) = record.(Name)
  /\ (posted record).(Type_) = record.(Type_)
  /\ (posted record).(TTL) = record.(TTL)
  /\ (posted record).(Value) = record.(Value).
Proof.
  split; [|repeat split].
  rewrite CreateRecord_run, sentBy_bind_try.
  destruct (domainNameOf authZone) as [p|d]; [reflexivity|].
  rewrite sentBy_exchange.
  destruct (NewRequestOK _ _); reflexivity.
Qed.

(** The lookup after a listing: the guarded pattern of [FindZoneVersion]
    and [GetRecord]. *)
Lemma guarded_lookup (A : Type) (f : A -> bool) (s : list A) (zero : A) (w : World) :
  ((if IndexFunc s f >? -1
    then bind (try (index s (IndexFunc s f))) (fun result => ret result)
    else ret zero) : M A) w
  = (Ok (match find f s with Some x => x | None => zero end), w).
Proof.
  rewrite IndexFunc_guard, index_IndexFunc.
  destruct (find f s); reflexivity.
Qed.

Lemma GetRecord_run (c : Client) (authZone versionUUID recordName recordType : string)
      (w : World) :
  GetRecord c authZone versionUUID recordName recordType w =
  match GetAllRecords c authZone versionUUID w with
  | (Ok rs, w') =>
      (Ok (match find (isRecord recordName recordType) rs with
           | Some r => r
           | None => zeroRecord
           end), w')
  | (Err e, w') => (Err e, w')
  | (Fault p, w') => (Fault p, w')
  end.
Proof.
  unfold GetRecord, bind at 1.
  destruct (GetAllRecords c authZone versionUUID w) as [[rs|e|p] w']; try reflexivity.
  apply (guarded_lookup _ (isRecord recordName recordType)).
Qed.

(** C7.  After a listing that returns [rs], [GetRecord] returns without
    error the first record of [rs] whose name and type are both the
    requested ones, and the zero record when there is none; on the list
    [A test01; TXT test04; A test04] the query [(test04, A)] returns the
    third record. *)
Theorem GetRecord_first_match
        (c : Client) (authZone versionUUID recordName recordType : string)
        (w w' : World) (rs : list Record_) :
  GetAllRecords c authZone versionUUID w = (Ok rs, w') ->
  (forall pre r post,
      rs = (pre ++ r :: post)%list ->
      (forall x, In x pre -> isRecord recordName recordType x = false) ->
      isRecord recordName recordType r = true ->
      GetRecord c authZone versionUUID recordName recordType w = (Ok r, w'))
  /\ ((forall x, In x rs -> isRecord recordName recordType x = false) ->
      GetRecord c authZone versionUUID recordName recordType w = (Ok zeroRecord, w'))
  /\ (forall v1 v2 v3 t1 t2 t3 p1 p2 p3,
         rs = [mkRecord "A" "test01" v1 t1 p1;
               mkRecord "TXT" "test04" v2 t2 p2;
               mkRecord "A" "test04" v3 t3 p3] ->
         GetRecord c authZone versionUUID "test04" "A" w
         = (Ok (mkRecord "A" "test04" v3 t3 p3), w')).
Proof.
  intros Hall. split; [|split].
  - intros pre r post -> Hpre Hr.
    rewrite GetRecord_run, Hall, (find_first _ _ pre post r Hpre Hr). reflexivity.
  - intros Hnone. apply find_none_iff in Hnone.
    rewrite GetRecord_run, Hall, Hnone. reflexivity.
  - intros v1 v2 v3 t1 t2 t3 p1 p2 p3 ->.
    rewrite GetRecord_run, Hall. reflexivity.
Qed.

(** C9.  After a listing that returns [rs], [ReadVersionUUID] returns
    without error: the rest of the value after ["active_version:"] (15
    bytes) for the first record named [lego] of type [TXT] when its value
    starts so, the empty string when its value does not, and the empty
    string when there is no such record.  It returns an error exactly when
    the listing does, and that error; and it panics only where the listing
    does: its own slice [[15:len]] is taken after the prefix test and is
    always in range. *)
Theorem ReadVersionUUID_result
        (c : Client) (authZone versionUUID : string) (w : World) :
  (forall rs w', GetAllRecords c authZone versionUUID w = (Ok rs, w') ->
     (forall r rest,
         find (isRecord "lego" "TXT") rs = Some r ->
         r.(Value) = "active_version:" ++ rest ->
         ReadVersionUUID c authZone versionUUID w = (Ok rest, w'))
     /\ (forall r,
            find (isRecord "lego" "TXT") rs = Some r ->
            (forall rest, r.(Value) <> "active_version:" ++ rest) ->
            ReadVersionUUID c authZone versionUUID w = (Ok "", w'))
     /\ (find (isRecord "lego" "TXT") rs = None ->
         ReadVersionUUID c authZone versionUUID w = (Ok "", w')))
  /\ (forall e w',
         ReadVersionUUID c authZone versionUUID w = (Err e, w')
         <-> GetAllRecords c authZone versionUUID w = (Err e, w'))
  /\ (forall p w',
         ReadVersionUUID c authZone versionUUID w = (Fault p, w')
         <-> GetAllRecords c authZone versionUUID w = (Fault p, w'))
  /\ len "active_version:" = 15.
Proof.
  assert (Hrun : forall rs w',
             GetAllRecords c authZone versionUUID w = (Ok rs, w') ->
             forall r, r = match find (isRecord "lego" "TXT") rs with
                           | Some r => r | None => zeroRecord end ->
             ReadVersionUUID c authZone versionUUID w =
             (if HasPrefix r.(Value) "active_version:"
              then bind (try (slice r.(Value) 15 (len r.(Value))))
                        (fun result => ret result)
              else ret "") w').
  { intros rs w' Hall r ->. unfold ReadVersionUUID, bind at 1.
    rewrite GetRecord_run, Hall. reflexivity. }
  assert (Hok : forall rs w0,
             GetAllRecords c authZone versionUUID w = (Ok rs, w0) ->
             exists u, ReadVersionUUID c authZone versionUUID w = (Ok u, w0)).
  { intros rs w0 Hall. rewrite (Hrun rs w0 Hall _ eq_refl).
    destruct (HasPrefix _ "active_version:") eqn:E; [|eexists; reflexivity].
    apply prefix_split in E. destruct E as [rest ->].
    change 15 with (len "active_version:").
    unfold bind, try. rewrite slice_after_prefix. eexists; reflexivity. }
  split; [|split; [|split; [|reflexivity]]].
  - intros rs w' Hall. split; [|split].
    + intros r rest Hf Hv. rewrite (Hrun rs w' Hall r) by (rewrite Hf; reflexivity).
      unfold HasPrefix. rewrite Hv, prefix_append.
      change 15 with (len "active_version:").
      unfold bind, try. rewrite slice_after_prefix. reflexivity.
    + intros r Hf Hno. rewrite (Hrun rs w' Hall r) by (rewrite Hf; reflexivity).
      unfold HasPrefix. destruct (String.prefix "active_version:" r.(Value)) eqn:E.
      * apply prefix_split in E. destruct E as [rest E]. elim (Hno rest E).
      * reflexivity.
    + intros Hf. rewrite (Hrun rs w' Hall zeroRecord) by (rewrite Hf; reflexivity).
      reflexivity.
  - intros e w'.
    destruct (GetAllRecords c authZone versionUUID w) as [[rs|e0|p] w0] eqn:Hall.
    + destruct (Hok rs w0 eq_refl) as [u ->]. split; discriminate.
    + unfold ReadVersionUUID, bind at 1. rewrite GetRecord_run, Hall.
      split; intros [= -> ->]; reflexivity.
    + unfold ReadVersionUUID, bind at 1. rewrite GetRecord_run, Hall.
      split; discriminate.
  - intros p w'.
    destruct (GetAllRecords c authZone versionUUID w) as [[rs|e0|p0] w0] eqn:Hall.
    + destruct (Hok rs w0 eq_refl) as [u ->]. split; discriminate.
    + unfold ReadVersionUUID, bind at 1. rewrite GetRecord_run, Hall.
      split; discriminate.
    + unfold ReadVersionUUID, bind at 1. rewrite GetRecord_run, Hall.
      split; intros [= -> ->]; reflexivity.
Qed.

End ClientSpec.

End ClientSpec.

(** ** Versions: the active one and the one of a given name *)

Module VersionLookup.
Import Go Internal Trace GoFacts ClientFacts.

Section VersionLookup.
Context `{Backend}.

Lemma FindActiveZoneVersion_run (c : Client) (authZone : string) (w : World) :
  FindActiveZoneVersion c authZone w =
  match ListAllVersions c authZone w with
  | (Ok versions, w') =>
      (match find (fun v => v.(Active)) versions with
       | Some v => Ok v
       | None => Fault (IndexOutOfRange (-1) (Z.of_nat (List.length versions)))
       end, w')
  | (Err e, w') => (Err e, w')
  | (Fault p, w') => (Fault p, w')
  end.
Proof.
  unfold FindActiveZoneVersion, bind at 1.
  destruct (ListAllVersions c authZone w) as [[versions|e|p] w']; try reflexivity.
  unfold bind, try. rewrite index_IndexFunc.
  destruct (find _ versions); reflexivity.
Qed.

Lemma FindZoneVersion_run (c : Client) (authZone versionName : string) (w : World) :
  FindZoneVersion c authZone versionName w =
  match ListAllVersions c authZone w with
  | (Ok versions, w') =>
      (Ok (match find (fun v => String.eqb v.(VName) versionName) versions with
           | Some v => v
           | None => zeroVersion
           end), w')
  | (Err e, w') => (Err e, w')
  | (Fault p, w') => (Fault p, w')
  end.
Proof.
  unfold FindZoneVersion, bind at 1.
  destruct (ListAllVersions c authZone w) as [[versions|e|p] w']; try reflexivity.
  apply (ClientSpec.guarded_lookup _ (fun v => String.eqb v.(VName) versionName)).
Qed.

Lemma no_active_find (versions : list Version) :
  (forall v, In v versions -> v.(Active) = false) ->
  find (fun v => v.(Active)) versions = None.
Proof. intros Hnone. apply find_none_iff. exact Hnone. Qed.

(** C1, what the code does where the specification asks for a NotFoundError.  After
    a listing that returns [versions] none of which is active,
    [FindActiveZoneVersion] does not return: [slices.IndexFunc] gives [-1]
    and [versions[-1]] panics with an index out of range. *)
Theorem FindActiveZoneVersion_without_active_panics
        (c : Client) (authZone : string) (w w' : World) (versions : list Version) :
  ListAllVersions c authZone w = (Ok versions, w') ->
  (forall v, In v versions -> v.(Active) = false) ->
  FindActiveZoneVersion c authZone w
  = (Fault (IndexOutOfRange (-1) (Z.of_nat (List.length versions))), w').
Proof.
  intros Hall Hnone.
  rewrite FindActiveZoneVersion_run, Hall, (no_active_find versions Hnone). reflexivity.
Qed.

(** The other half of C1 holds: when exactly one listed version is active,
    it is the one returned. *)
Lemma FindActiveZoneVersion_returns_the_active
      (c : Client) (authZone : string) (w w' : World)
      (pre post : list Version) (v : Version) :
  ListAllVersions c authZone w = (Ok (pre ++ v :: post)%list, w') ->
  v.(Active) = true ->
  (forall x, In x (pre ++ post)%list -> x.(Active) = false) ->
  FindActiveZoneVersion c authZone w = (Ok v, w').
Proof.
  intros Hall Hv Hothers.
  rewrite FindActiveZoneVersion_run, Hall.
  rewrite (find_first _ (fun v => v.(Active)) pre post v); [reflexivity| |exact Hv].
  intros y Hy. apply Hothers. apply in_or_app. left. exact Hy.
Qed.

(** The sibling lookup is guarded: no version of that name gives the zero
    version, not a fault. *)
Lemma FindZoneVersion_absent
      (c : Client) (authZone versionName : string) (w w' : World)
      (versions : list Version) :
  ListAllVersions c authZone w = (Ok versions, w') ->
  (forall v, In v versions -> v.(VName) <> versionName) ->
  FindZoneVersion c authZone versionName w = (Ok zeroVersion, w').
Proof.
  intros Hall Hnone.
  assert (Hf : find (fun v => String.eqb v.(VName) versionName) versions = None).
  { apply find_none_iff. intros v Hv. apply String.eqb_neq. exact (Hnone v Hv). }
  rewrite FindZoneVersion_run, Hall, Hf. reflexivity.
Qed.

End VersionLookup.

End VersionLookup.

(** ** Duplication of records *)

Module Duplication.
Import Go Internal Trace GoFacts ClientFacts RegexpFacts ZoneName.

(** What the pattern accepts: a type that starts with [A], or contains
    [AAAA], [CNAME], [MX] or [SRV] anywhere, or ends with [TXT]. *)
Lemma MatchString_allowedTypesRegexp (t : string) :
  MatchString allowedTypesRegexp t = true <->
  startsWith (word "A") (word t)
  \/ contains (word "AAAA") (word t)
  \/ contains (word "CNAME") (word t)
  \/ contains (word "MX") (word t)
  \/ contains (word "SRV") (word t)
  \/ endsWith (word "TXT") (word t).
Proof.
  unfold MatchString. fold (word t). rewrite searchFrom_true. split.
  - intros (pre & post & Heq & Hm). apply allowedTypesRegexp_here in Hm.
    destruct Hm as [[Hb Hs]|[Hs|[Hs|[Hs|[Hs|Hs]]]]].
    + left. destruct pre; [|discriminate Hb]. rewrite Heq. exact Hs.
    + right; left. destruct Hs as [post' ->]. exists pre, post'. exact Heq.
    + right; right; left. destruct Hs as [post' ->]. exists pre, post'. exact Heq.
    + right; right; right; left. destruct Hs as [post' ->]. exists pre, post'. exact Heq.
    + right; right; right; right; left. destruct Hs as [post' ->].
      exists pre, post'. exact Heq.
    + right; right; right; right; right. exists pre. rewrite Heq, Hs. reflexivity.
  - intros [Hs|[Hs|[Hs|[Hs|[Hs|Hs]]]]].
    + exists [], (word t). split; [reflexivity|].
      apply allowedTypesRegexp_here. left. split; [reflexivity|exact Hs].
    + destruct Hs as (pre & post' & Hs). exists pre, (word "AAAA" ++ post')%list.
      split; [exact Hs|]. apply allowedTypesRegexp_here.
      right; left. exists post'. reflexivity.
    + destruct Hs as (pre & post' & Hs). exists pre, (word "CNAME" ++ post')%list.
      split; [exact Hs|]. apply allowedTypesRegexp_here.
      right; right; left. exists post'. reflexivity.
    + destruct Hs as (pre & post' & Hs). exists pre, (word "MX" ++ post')%list.
      split; [exact Hs|]. apply allowedTypesRegexp_here.
      right; right; right; left. exists post'. reflexivity.
    + destruct Hs as (pre & post' & Hs). exists pre, (word "SRV" ++ post')%list.
      split; [exact Hs|]. apply allowedTypesRegexp_here.
      right; right; right; right; left. exists post'. reflexivity.
    + destruct Hs as (pre & Hs). exists pre, (word "TXT").
      split; [exact Hs|]. apply allowedTypesRegexp_here.
      right; right; right; right; right. reflexivity.
Qed.

(** Every allow-listed type is accepted, and the pattern is the one of the
    source text. *)
Lemma allowedTypes_accepted (t : string) :
  In t allowedTypes -> MatchString allowedTypesRegexp t = true.
Proof.
  unfold allowedTypes. cbn [In].
  intros [<-|[<-|[<-|[<-|[<-|[<-|[]]]]]]]; reflexivity.
Qed.

Lemma allowedTypesRegexp_source :
  render allowedTypesRegexp = "^(A)|(AAAA)|(CNAME)|(MX)|(SRV)|(TXT)$".
Proof. reflexivity. Qed.

Section Duplication.
Context `{Backend}.

Lemma bind_Ok_inv (A B : Type) (m : M A) (k : A -> M B) (w w' : World) (b : B) :
  bind m k w = (Ok b, w') ->
  exists a w1, m w = (Ok a, w1) /\ k a w1 = (Ok b, w').
Proof.
  unfold bind. destruct (m w) as [[a|e|p] w1]; try discriminate.
  intros Hk. exists a, w1. split; [reflexivity|exact Hk].
Qed.

(** A [CreateRecord] that returns has sent exactly its one request. *)
Lemma CreateRecord_Ok_sent (c : Client) (authZone versionID : string)
      (record result : Record_) (w w' : World) :
  CreateRecord c authZone versionID record w = (Ok result, w') ->
  exists req, w'.(sent) = (w.(sent) ++ [req])%list
              /\ req.(ReqMethod) = MethodPost
              /\ req.(ReqBody) = PayloadRecord (posted record).
Proof.
  rewrite CreateRecord_run. unfold bind at 1, try.
  destruct (domainNameOf authZone) as [p|d]; [discriminate|].
  rewrite exchange_run. destruct (NewRequestOK _ _); [|discriminate].
  intros Hdo.
  exists (requestFor c MethodPost ["domain"; d; "version"; versionID; "zone"]
                     (PayloadRecord (posted record))).
  split; [|split; reflexivity].
  rewrite <- (do_sent _ c _ (Some UnmarshalRecord) zeroRecord w), Hdo. reflexivity.
Qed.

(** The records the loop selects: those whose type the pattern accepts. *)
Lemma duplicateEach_Ok_sent (c : Client) (authZone target : string)
      (records : list Record_) : forall (w w' : World),
  duplicateEach c authZone target records w = (Ok tt, w') ->
  exists l, w'.(sent) = (w.(sent) ++ l)%list
            /\ map ReqBody l =
               map (fun r => PayloadRecord (posted r))
                   (filter (fun r => MatchString allowedTypesRegexp r.(Type_)) records).
Proof.
  induction records as [|r records IH]; intros w w'; cbn [duplicateEach filter].
  - intros [= <-]. exists []. rewrite app_nil_r. split; reflexivity.
  - destruct (MatchString allowedTypesRegexp r.(Type_)); [|apply IH].
    intros Hrun. apply bind_Ok_inv in Hrun. destruct Hrun as (x & w1 & Hc & Hrest).
    apply CreateRecord_Ok_sent in Hc. destruct Hc as (req & Hs1 & _ & Hb).
    destruct (IH _ _ Hrest) as (l & Hs2 & Hl).
    exists (req :: l). split.
    + rewrite Hs2, Hs1, <- app_assoc. reflexivity.
    + cbn [map]. rewrite Hb, Hl. reflexivity.
Qed.

(** When [DuplicateZoneVersionRecords] returns without error after reading
    [records] from the source, the bodies it posted to the target are, in
    source order, the records whose type the pattern accepts, each with
    the default priority. *)
Lemma DuplicateZoneVersionRecords_copies
      (c : Client) (authZone source target : string)
      (records : list Record_) (w w1 w' : World) :
  GetAllRecords c authZone source w = (Ok records, w1) ->
  DuplicateZoneVersionRecords c authZone source target w = (Ok tt, w') ->
  map ReqBody (sentBy (duplicateEach c authZone target records) w1) =
  map (fun r => PayloadRecord (posted r))
      (filter (fun r => MatchString allowedTypesRegexp r.(Type_)) records).
Proof.
  intros Hall Hrun. unfold DuplicateZoneVersionRecords, bind in Hrun.
  rewrite Hall in Hrun.
  destruct (duplicateEach_Ok_sent c authZone target records w1 w' Hrun) as (l & Hs & Hl).
  rewrite <- Hl. f_equal. apply sentBy_extends. rewrite Hrun. exact Hs.
Qed.

End Duplication.

End Duplication.

(** ** The coordinator *)

Module Coordinator.
Import Go Internal ScalewayDedibox Trace GoFacts ClientFacts ZoneName VersionLookup.

Lemma Version_eqb_eq (a b : Version) : Version_eqb a b = true <-> a = b.
Proof.
  unfold Version_eqb. split.
  - rewrite !andb_true_iff, !String.eqb_eq, Bool.eqb_true_iff.
    destruct a, b; cbn. intros [[[[[-> ->] ->] ->] ->] ->]. reflexivity.
  - intros ->. rewrite !String.eqb_refl, Bool.eqb_reflx. reflexivity.
Qed.

Lemma Version_eqb_neq (a b : Version) : Version_eqb a b = false <-> a <> b.
Proof.
  rewrite <- Version_eqb_eq. destruct (Version_eqb a b); split; congruence.
Qed.

Section Coordinator.
Context `{Backend} `{DNS01}.

(** C4, what the code does where the specification asks for the configured base
    URL.  Whatever [BaseURL] a configuration supplies, the provider built
    from it has a client whose base URL is the default one, and every
    request of every operation of that client goes to the default base
    URL: [NewDNSProviderConfig] never reads the field. *)
Theorem NewDNSProviderConfig_ignores_BaseURL (cfg : Config) (d : DNSProvider) :
  NewDNSProviderConfig (Some cfg) = inr d ->
  d.(client).(baseURL) = DefaultBaseURL
  /\ forall op authZone w,
      Forall (fun req => req.(ReqURL).(Base) = DefaultBaseURL)
             (sentBy (run op d.(client) authZone) w).
Proof.
  unfold NewDNSProviderConfig, NewClient.
  destruct (String.eqb cfg.(APIToken) ""); [discriminate|].
  intros [= <-]. cbn [client baseURL]. split; [reflexivity|].
  intros op authZone w. apply emits_sentBy. apply emits_run.
  intros method elem payload. reflexivity.
Qed.

(** *** [Present] stops at the first error *)

Lemma call_run (A : Type) (m : M A) (wrap : Error -> ProviderError)
      (d : DNSProvider) (w : World) :
  call m wrap (d, w) =
  match m w with
  | (Ok a, w') => (Ok a, (d, w'))
  | (Err e, w') => (Err (wrap e), (d, w'))
  | (Fault p, w') => (Fault p, (d, w'))
  end.
Proof. reflexivity. Qed.


(** The guard: when the listing holds a version that bears the configured
    label, [Present] fails with the conflict error after that one
    listing. *)
Theorem Present_guard_conflict
        (domainName token keyAuth authZone : string) (d : DNSProvider) (w w' : World)
        (versions : list Version) (v : Version) :
  FindZoneByFqdn (GetChallengeInfo domainName keyAuth).(EffectiveFQDN) = Some authZone ->
  ListAllVersions d.(client) authZone w = (Ok versions, w') ->
  find (fun x => String.eqb x.(VName) d.(config).(TempZoneVersionName)) versions = Some v ->
  v <> zeroVersion ->
  Present domainName token keyAuth (d, w)
  = (Err (ErrVersionExists d.(config).(TempZoneVersionName) authZone), (d, w')).
Proof.
  intros Hzone Hall Hfind Hnz. unfold Present. rewrite Hzone.
  unfold bind at 1, this. cbn [fst].
  unfold bind at 1. rewrite call_run, FindZoneVersion_run, Hall, Hfind.
  apply Version_eqb_neq in Hnz. rewrite Hnz. reflexivity.
Qed.

(** C8, what the code does where the specification asks for an error.  When the
    guard has passed and the listing of the active-version lookup holds no
    active version, that step fails by a panic: [Present] is unwound in the
    world that listing left, and returns no error at all. *)
Theorem Present_without_active_version_panics
        (domainName token keyAuth authZone : string) (d : DNSProvider) (w w1 w2 : World)
        (versions : list Version) :
  FindZoneByFqdn (GetChallengeInfo domainName keyAuth).(EffectiveFQDN) = Some authZone ->
  FindZoneVersion d.(client) authZone d.(config).(TempZoneVersionName) w
  = (Ok zeroVersion, w1) ->
  ListAllVersions d.(client) authZone w1 = (Ok versions, w2) ->
  (forall v, In v versions -> v.(Active) = false) ->
  Present domainName token keyAuth (d, w)
  = (Fault (IndexOutOfRange (-1) (Z.of_nat (List.length versions))), (d, w2)).
Proof.
  intros Hzone Hguard Hall Hnone. unfold Present. rewrite Hzone.
  unfold bind at 1, this. cbn [fst].
  unfold bind at 1. rewrite call_run, Hguard. cbn [negb Version_eqb].
  change (Version_eqb zeroVersion zeroVersion) with true. cbn [negb].
  unfold bind at 1.
  rewrite call_run, FindActiveZoneVersion_run, Hall, (no_active_find versions Hnone).
  reflexivity.
Qed.

End Coordinator.

End Coordinator.

(** ** Runs against the in-memory registrar *)

Module Runs.
Import Go Internal ScalewayDedibox Trace Registrar.
Import ClientSpec VersionLookup Duplication Coordinator.

Lemma FindActiveZoneVersion_without_active_panics_witness :
  FindActiveZoneVersion testClient "example.com." zoneInactive
  = (Fault (IndexOutOfRange (-1) 1),
     snd (ListAllVersions testClient "example.com." zoneInactive)).
Proof.
  apply (FindActiveZoneVersion_without_active_panics
           testClient "example.com." zoneInactive _ [version "v1" "main" false]).
  - reflexivity.
  - intros v [<-|[]]. reflexivity.
Defined.

(** C2, what the code does where the specification allows six types only.  The
    type AFSDB is not on the allow-list, the pattern accepts it (it starts
    with [A]), and [DuplicateZoneVersionRecords] posts the AFSDB record of the
    source to the target along with the A record. *)
Theorem Duplicate_copies_a_type_outside_the_allow_list :
  ~ In "AFSDB" allowedTypes
  /\ MatchString allowedTypesRegexp "AFSDB" = true
  /\ fst (DuplicateZoneVersionRecords testClient "example.com." "v1" "v2" zoneStray)
     = Ok tt
  /\ map ReqBody
         (sentBy (DuplicateZoneVersionRecords testClient "example.com." "v1" "v2") zoneStray)
     = [PayloadNil;
        PayloadRecord (posted (rec "A" "www" "192.0.2.1"));
        PayloadRecord (posted (rec "AFSDB" "afs" "1 afsdb.example.com."))].
Proof.
  split; [|split; [|split]]; try reflexivity.
  unfold allowedTypes. cbn [In].
  intros [E|[E|[E|[E|[E|[E|[]]]]]]]; discriminate E.
Qed.

(** The example of the spec does hold: of one record each of types A, NS,
    TXT and SOA, the A and the TXT record are posted, in that order. *)
Lemma Duplicate_A_NS_TXT_SOA :
  map ReqBody
      (sentBy (DuplicateZoneVersionRecords testClient "example.com." "v1" "v2") zoneFour)
  = [PayloadNil;
     PayloadRecord (posted (rec "A" "www" "192.0.2.1"));
     PayloadRecord (posted (rec "TXT" "note" "hello"))].
Proof. reflexivity. Qed.

(** C3, what the code does where the specification asks for a conflict.  With
    the label [custom] configured, a first [Present] succeeds and a second
    one, with no [CleanUp] and no other change in between, passes the guard
    and succeeds as well: the version the first one created is named
    [lego_tmp], not [custom], and the zone ends up with two of them. *)
Theorem second_Present_with_custom_label_is_not_refused :
  fst (Present "example.com" "token" "keyAuth" (testProvider "custom", zoneLive)) = Ok tt
  /\ fst (Present "example.com" "token" "keyAuth" (afterPresent "custom")) = Ok tt
  /\ map (fun e => (fst e).(VName))
         (snd (snd (Present "example.com" "token" "keyAuth" (afterPresent "custom"))))
           .(server).(versions)
     = ["main"; "lego_tmp"; "lego_tmp"].
Proof. repeat split. Qed.

(** With the default label the guard does refuse the second [Present]. *)
Lemma second_Present_with_default_label_is_refused :
  fst (Present "example.com" "token" "keyAuth" (testProvider "lego_tmp", zoneLive)) = Ok tt
  /\ fst (Present "example.com" "token" "keyAuth" (afterPresent "lego_tmp"))
     = Err (ErrVersionExists "lego_tmp" "example.com.").
Proof. split; reflexivity. Qed.

Lemma NewDNSProviderConfig_ignores_BaseURL_witness :
  configWithBaseURL.(BaseURL) = "http://127.0.0.1:8080"
  /\ Forall (fun req => req.(ReqURL).(Base) = "https://api.online.net/api/v1")
            (sentBy (run CallListAllVersions
                         {| apiToken := "token"; baseURL := DefaultBaseURL;
                            HTTPClient_ := configWithBaseURL.(HTTPClient) |}
                         "example.com.") zoneLive).
Proof.
  split; [reflexivity|].
  exact (proj2 (NewDNSProviderConfig_ignores_BaseURL configWithBaseURL _ eq_refl)
               CallListAllVersions "example.com." zoneLive).
Defined.

(** The payload of [CreateZoneVersion] for a name other than the default. *)
Lemma CreateZoneVersion_other_name :
  map ReqBody (sentBy (CreateZoneVersion testClient "example.com." "other") zoneLive)
  = [PayloadVersion "lego_tmp"].
Proof. reflexivity. Qed.

(** The payload of [CreateRecord] for a record of priority 5. *)
Lemma CreateRecord_priority_5 :
  map ReqBody
      (sentBy (CreateRecord testClient "example.com." "v1"
                 (mkRecord "MX" "@" "mail.example.com." 300 5)) zoneLive)
  = [PayloadRecord (mkRecord "MX" "@" "mail.example.com." 300 12)].
Proof. reflexivity. Qed.

Lemma GetRecord_first_match_witness :
  GetRecord testClient "example.com." "v1" "test04" "A" zoneLookup
  = (Ok (rec "A" "test04" "127.0.0.1"),
     snd (GetAllRecords testClient "example.com." "v1" zoneLookup)).
Proof.
  refine (proj1 (GetRecord_first_match testClient "example.com." "v1" "test04" "A"
                   zoneLookup _ _ eq_refl)
                [rec "A" "test01" "127.0.0.1"; rec "TXT" "test04" "text"]
                (rec "A" "test04" "127.0.0.1")
                [rec "TXT" "lego" "active_version:thisone"] eq_refl _ eq_refl).
  intros x [<-|[<-|[]]]; reflexivity.
Defined.

Lemma ReadVersionUUID_result_witness :
  ReadVersionUUID testClient "example.com." "v1" zoneLookup
  = (Ok "thisone", snd (GetAllRecords testClient "example.com." "v1" zoneLookup)).
Proof.
  exact (proj1 (proj1 (ReadVersionUUID_result testClient "example.com." "v1" zoneLookup)
                      _ _ eq_refl)
               (rec "TXT" "lego" "active_version:thisone") "thisone" eq_refl eq_refl).
Defined.

Lemma Present_without_active_version_panics_witness :
  Present "example.com" "token" "keyAuth" (testProvider "lego_tmp", zoneInactive)
  = (Fault (IndexOutOfRange (-1) 1),
     (testProvider "lego_tmp",
      snd (ListAllVersions testClient "example.com."
             (snd (FindZoneVersion testClient "example.com." "lego_tmp" zoneInactive))))).
Proof.
  apply (Present_without_active_version_panics
           "example.com" "token" "keyAuth" "example.com."
           (testProvider "lego_tmp") zoneInactive
           (snd (FindZoneVersion testClient "example.com." "lego_tmp" zoneInactive))
           _ [version "v1" "main" false]).
  - reflexivity.
  - reflexivity.
  - reflexivity.
  - intros v [<-|[]]. reflexivity.
Defined.

(** Whatever the final byte of the zone name is, it is the one dropped. *)
Lemma zone_name_final_byte_example :
  map (fun req => req.(ReqURL).(Elem))
      (sentBy (ListAllVersions testClient "example.comX") zoneLive)
  = [["domain"; "example.com"; "version"]].
Proof. reflexivity. Qed.

End Runs.

(** ** The guard of [Present] against the in-memory registrar *)

Module Guard.
Import Go Internal ScalewayDedibox Trace Registrar.
Import GoFacts ClientFacts ZoneName VersionLookup Coordinator.

(** *** What the registrar does to its versions *)

Lemma handle_domain (req : Request) (st : State) :
  (snd (handle req st)).(domain) = st.(domain).
Proof.
  unfold handle.
  repeat match goal with
         | |- context [match ?x with _ => _ end] => destruct x
         end; reflexivity.
Qed.

Lemma named_app (n : string) (st : State) (l : list (Version * list Record_)) :
  named n st -> named n (mkState st.(domain) (st.(versions) ++ l) (S st.(counter))).
Proof.
  intros (e & Hin & Hn). exists e. split; [|exact Hn].
  cbn. apply in_or_app. left. exact Hin.
Qed.

Lemma named_map (n : string) (st : State)
      (f : Version * list Record_ -> Version * list Record_) :
  (forall e, (fst (f e)).(VName) = (fst e).(VName)) ->
  named n st -> named n (withVersions st (map f st.(versions))).
Proof.
  intros Hf (e & Hin & Hn). exists (f e). split.
  - cbn. apply in_map. exact Hin.
  - rewrite Hf. exact Hn.
Qed.

Lemma setActive_name (u : string) (e : Version * list Record_) :
  (fst (setActive u e)).(VName) = (fst e).(VName).
Proof. reflexivity. Qed.

Lemma addRecord_name (u : string) (r : Record_) (e : Version * list Record_) :
  (fst (addRecord u r e)).(VName) = (fst e).(VName).
Proof. unfold addRecord. destruct (hasUUID u e); reflexivity. Qed.

(** Only a DELETE removes a version. *)
Lemma handle_keeps_named (n : string) (req : Request) (st : State) :
  req.(ReqMethod) <> MethodDelete -> named n st -> named n (snd (handle req st)).
Proof.
  intros Hm Hn. unfold handle.
  repeat match goal with
         | |- context [match ?x with _ => _ end] => destruct x
         end; cbn [snd]; try exact Hn; try congruence;
    first [ apply (named_app n st _ Hn)
          | apply named_map;
            [intros e; first [apply setActive_name | apply addRecord_name] | exact Hn] ].
Qed.

(** A creation that is answered with a success has added a version of the
    name in the payload. *)
Lemma handle_creates_named (n : string) (req : Request) (st : State)
      (status : Z) (body : option Body) :
  req.(ReqMethod) = MethodPost ->
  req.(ReqBody) = PayloadVersion n ->
  fst (handle req st) = Responded status body ->
  Z.quot status 100 = 2 ->
  named n (snd (handle req st)).
Proof.
  intros Hm Hb. unfold handle. rewrite Hm, Hb.
  repeat match goal with
         | |- context [match ?x with _ => _ end] => destruct x
         end; cbn [fst snd]; unfold notFound, conflict, ok;
    intros [= <- <-] Hs; try discriminate Hs.
  eexists. split; [apply in_or_app; right; left; reflexivity|reflexivity].
Qed.

(** *** What the client's operations do to the registrar *)

Lemma do_server (A : Type) (c : Client) (req : Request)
      (result : option (Raw -> option A)) (zero : A) (w : World) :
  (snd (do c req result zero w)).(server) = snd (handle req w.(server)).
Proof.
  unfold do. cbn [Do backend].
  destruct (handle req w.(server)) as [resp srv].
  destruct resp as [|status body]; [reflexivity|].
  destruct (negb (Z.quot status 100 =? 2)); [reflexivity|].
  destruct result as [unmarshal|]; [|reflexivity].
  destruct body as [raw|]; [|reflexivity].
  destruct (unmarshal raw); reflexivity.
Qed.

Lemma keeps_ret (A : Type) (I : State -> Prop) (a : A) : keeps I (ret a).
Proof. intros w Hw. exact Hw. Qed.

Lemma keeps_bind (A B : Type) (I : State -> Prop) (m : M A) (k : A -> M B) :
  keeps I m -> (forall a, keeps I (k a)) -> keeps I (bind m k).
Proof.
  intros Hm Hk w Hw. specialize (Hm w Hw). unfold bind.
  destruct (m w) as [[a|e|p] w1]; cbn [snd] in *; [apply Hk| |]; exact Hm.
Qed.

Lemma keeps_bind_try (A B : Type) (I : State -> Prop) (x : Panic + A) (k : A -> M B) :
  (forall a, keeps I (k a)) -> keeps I (bind (try x) k).
Proof.
  intros Hk w Hw. unfold bind, try. destruct x as [p|a]; [exact Hw|apply Hk; exact Hw].
Qed.

Lemma keeps_exchange (A : Type) (I : State -> Prop) (c : Client) (method : Method)
      (elem : list string) (payload : Payload) (result : option (Raw -> option A))
      (zero : A) :
  (forall st, I st -> I (snd (handle (requestFor c method elem payload) st))) ->
  keeps I (exchange c method elem payload result zero).
Proof.
  intros HI w Hw. rewrite exchange_run. cbn [NewRequestOK backend].
  rewrite do_server. apply HI. exact Hw.
Qed.

(** The state a run of [Present] must not lose once the temporary version
    exists: the domain served and a version named [n]. *)
Section Kept.
Variables (c : Client) (authZone dn n : string).

Lemma handle_keeps (req : Request) (st : State) :
  req.(ReqMethod) <> MethodDelete -> serves dn n st -> serves dn n (snd (handle req st)).
Proof.
  intros Hm [Hd Hn]. split.
  - rewrite handle_domain. exact Hd.
  - apply handle_keeps_named; assumption.
Qed.

Lemma keeps_CreateRecord v r : keeps (serves dn n) (CreateRecord c authZone v r).
Proof.
  rewrite CreateRecord_run. apply keeps_bind_try. intros d.
  apply keeps_exchange. intros st. apply handle_keeps. discriminate.
Qed.

Lemma keeps_GetAllRecords u : keeps (serves dn n) (GetAllRecords c authZone u).
Proof.
  rewrite GetAllRecords_run. apply keeps_bind_try. intros d.
  apply keeps_exchange. intros st. apply handle_keeps. discriminate.
Qed.

Lemma keeps_EnableZone v : keeps (serves dn n) (EnableZone c authZone v).
Proof.
  rewrite EnableZone_run. apply keeps_bind_try. intros d.
  apply keeps_exchange. intros st. apply handle_keeps. discriminate.
Qed.

Lemma keeps_duplicateEach t rs : keeps (serves dn n) (duplicateEach c authZone t rs).
Proof.
  induction rs as [|r rs IH]; cbn [duplicateEach].
  - apply keeps_ret.
  - destruct (MatchString allowedTypesRegexp r.(Type_)); [|exact IH].
    apply keeps_bind; [apply keeps_CreateRecord|intros _; exact IH].
Qed.

Lemma keeps_DuplicateZoneVersionRecords a b :
  keeps (serves dn n) (DuplicateZoneVersionRecords c authZone a b).
Proof.
  unfold DuplicateZoneVersionRecords.
  apply keeps_bind; [apply keeps_GetAllRecords|intros rs; apply keeps_duplicateEach].
Qed.

End Kept.

(** A listing that succeeds was made for the registrar's domain, returns
    its versions and leaves it as it was. *)
Lemma ListAllVersions_Ok (c : Client) (authZone : string) (w w' : World)
      (vs : list Version) :
  ListAllVersions c authZone w = (Ok vs, w') ->
  domainNameOf authZone = inr w.(server).(domain)
  /\ w'.(server) = w.(server)
  /\ vs = map fst w.(server).(versions).
Proof.
  rewrite ListAllVersions_run. unfold bind at 1, try.
  destruct (domainNameOf authZone) as [p|d]; [discriminate|].
  rewrite exchange_run. cbn [NewRequestOK backend].
  unfold do. cbn [Do backend]. unfold handle.
  cbn [requestFor ReqURL Elem ReqMethod ReqBody String.eqb Ascii.eqb Bool.eqb andb].
  destruct (String.eqb d w.(server).(domain)) eqn:E; cbn.
  - intros [= <- <-]. apply String.eqb_eq in E. subst d. repeat split.
  - discriminate.
Qed.

Lemma ListAllVersions_lists (c : Client) (authZone : string) (w : World) :
  domainNameOf authZone = inr w.(server).(domain) ->
  exists w', ListAllVersions c authZone w = (Ok (map fst w.(server).(versions)), w').
Proof.
  intros Hd. rewrite ListAllVersions_run. unfold bind at 1, try. rewrite Hd.
  rewrite exchange_run. cbn [NewRequestOK backend].
  unfold do. cbn [Do backend]. unfold handle.
  cbn [requestFor ReqURL Elem ReqMethod ReqBody String.eqb Ascii.eqb Bool.eqb andb].
  rewrite String.eqb_refl. cbn. eexists. reflexivity.
Qed.

(** A creation that succeeds leaves a version named [lego_tmp], whatever
    name was asked for. *)
Lemma CreateZoneVersion_Ok (c : Client) (authZone versionName : string) (w w' : World)
      (v : Version) :
  CreateZoneVersion c authZone versionName w = (Ok v, w') ->
  w'.(server).(domain) = w.(server).(domain) /\ named "lego_tmp" w'.(server).
Proof.
  rewrite CreateZoneVersion_run. unfold bind at 1, try.
  destruct (domainNameOf authZone) as [p|d]; [discriminate|].
  rewrite exchange_run. cbn [NewRequestOK backend].
  intros Hdo.
  assert (Hs : w'.(server) = snd (handle (requestFor c MethodPost ["domain"; d; "version"]
                                                     (PayloadVersion "lego_tmp"))
                                         w.(server))).
  { rewrite <- (do_server Version c _ (Some UnmarshalVersion) zeroVersion w), Hdo.
    reflexivity. }
  rewrite Hs. split; [apply handle_domain|].
  revert Hdo. unfold do. cbn [Do backend].
  destruct (handle _ w.(server)) as [resp srv] eqn:Hh.
  destruct resp as [|status body]; [discriminate|].
  destruct (Z.quot status 100 =? 2) eqn:E; cbn [negb]; [|discriminate].
  intros _. apply Z.eqb_eq in E.
  replace srv with (snd (handle (requestFor c MethodPost ["domain"; d; "version"]
                                            (PayloadVersion "lego_tmp")) w.(server)))
    by (rewrite Hh; reflexivity).
  apply (handle_creates_named "lego_tmp" _ _ status body); try reflexivity; [|exact E].
  rewrite Hh. reflexivity.
Qed.

Lemma find_among (A : Type) (f : A -> bool) (l : list A) (x : A) :
  In x l -> f x = true -> exists v, find f l = Some v /\ f v = true.
Proof.
  intros Hin Hx. destruct (find f l) as [v|] eqn:E.
  - exists v. split; [reflexivity|]. exact (proj2 (find_some f l E)).
  - rewrite (find_none f l E x Hin) in Hx. discriminate.
Qed.

Section Twice.
Context `{DNS01}.

(** The part of C3 that holds, against this registrar: under the default
    label [lego_tmp], a [Present] that follows a successful [Present]
    with nothing in between is refused by the guard with the conflict
    error, after its one listing. *)
Theorem second_Present_under_the_default_label_is_refused
        (domainName token keyAuth : string) (d d1 : DNSProvider) (w w1 : World) :
  d.(config).(TempZoneVersionName) = "lego_tmp" ->
  Present domainName token keyAuth (d, w) = (Ok tt, (d1, w1)) ->
  exists authZone w2,
    Present domainName token keyAuth (d1, w1)
    = (Err (ErrVersionExists "lego_tmp" authZone), (d1, w2)).
Proof.
  intros Hlabel. unfold Present at 1.
  destruct (FindZoneByFqdn _) as [authZone|] eqn:Hzone; [|discriminate].
  unfold bind at 1, this. cbn [fst].
  unfold bind at 1. rewrite call_run.
  destruct (FindZoneVersion _ _ _ w) as [[version|e1|p1] wa] eqn:H1; try discriminate.
  destruct (Version_eqb version zeroVersion) eqn:Hz; cbn [negb]; [|discriminate].
  unfold bind at 1. rewrite call_run.
  destruct (FindActiveZoneVersion _ _ wa) as [[active|e2|p2] wb] eqn:H2; try discriminate.
  unfold bind at 1, setActiveVersionUUID. cbn [fst snd].
  unfold bind at 1. rewrite call_run.
  destruct (CreateZoneVersion _ _ _ wb) as [[temp|e3|p3] wc] eqn:H3; try discriminate.
  unfold bind at 1, setTempVersionUUID. cbn [fst snd].
  unfold bind at 1. rewrite call_run.
  destruct (DuplicateZoneVersionRecords _ _ _ _ wc) as [[[]|e4|p4] wd] eqn:H4;
    try discriminate.
  unfold bind at 1. rewrite call_run.
  destruct (CreateRecord _ _ _ _ wd) as [[created|e5|p5] we] eqn:H5; try discriminate.
  rewrite call_run.
  destruct (EnableZone _ _ _ we) as [[[]|e6|p6] wf] eqn:H6; try discriminate.
  intros [= <- <-].
  (* the listings of the first run *)
  rewrite FindZoneVersion_run in H1.
  destruct (ListAllVersions d.(client) authZone w) as [[vs|ea|pa] wa'] eqn:La;
    try discriminate.
  injection H1 as _ <-.
  destruct (ListAllVersions_Ok _ _ _ _ _ La) as (Hdom & Hsa & _).
  rewrite FindActiveZoneVersion_run in H2.
  destruct (ListAllVersions d.(client) authZone wa') as [[vs'|eb|pb] wb'] eqn:Lb;
    try discriminate.
  assert (wb' = wb) as -> by (destruct (find _ vs'); congruence).
  destruct (ListAllVersions_Ok _ _ _ _ _ Lb) as (_ & Hsb & _).
  (* the creation, and what the later steps keep *)
  destruct (CreateZoneVersion_Ok _ _ _ _ _ _ H3) as (Hdc & Hnc).
  assert (Hc : serves w.(server).(domain) "lego_tmp" wc.(server)).
  { split; [|exact Hnc]. rewrite Hdc, Hsb, Hsa. reflexivity. }
  pose proof (keeps_DuplicateZoneVersionRecords d.(client) authZone
                w.(server).(domain) "lego_tmp" active.(UUIDRef) temp.(UUIDRef) wc Hc) as Hd.
  rewrite H4 in Hd. cbn [snd] in Hd.
  match type of H5 with
  | CreateRecord _ _ ?v ?r _ = _ =>
      pose proof (keeps_CreateRecord d.(client) authZone w.(server).(domain) "lego_tmp"
                    v r wd Hd) as He
  end.
  rewrite H5 in He. cbn [snd] in He.
  pose proof (keeps_EnableZone d.(client) authZone w.(server).(domain) "lego_tmp"
                temp.(UUIDRef) we He) as Hf.
  rewrite H6 in Hf. cbn [snd] in Hf. destruct Hf as (Hdf & e & Hin & Hname).
  (* the guard of the second run *)
  rewrite <- Hdf in Hdom.
  destruct (ListAllVersions_lists d.(client) authZone wf Hdom) as (w2 & L2).
  destruct (find_among _ (fun x => String.eqb x.(VName) "lego_tmp")
                       (map fst wf.(server).(versions)) (fst e)) as (v & Hfind & Hv).
  { apply in_map. exact Hin. }
  { apply String.eqb_eq. exact Hname. }
  exists authZone, w2.
  match goal with
  | |- Present _ _ _ (?p, _) = _ =>
      pose proof (Present_guard_conflict domainName token keyAuth authZone p wf w2
                    _ v Hzone L2) as G
  end.
  cbn [config] in G. rewrite Hlabel in G. apply (G Hfind).
  apply String.eqb_eq in Hv. intros ->. discriminate Hv.
Qed.

End Twice.

End Guard.

(** ** Construction of the client and of the provider *)

Module Construction.
Import Go Internal ScalewayDedibox.

Section Construction.
Context `{Backend} `{DNS01}.

(** X1.  [NewClient] refuses the empty token and nothing else.
    [NewDNSProviderConfig] fails for a nil configuration and for an empty
    token, each with its own error, and succeeds for every other
    configuration: the provider holds the configuration itself, a client
    with the configured token and HTTP client (the 5 s client of [NewClient]
    is replaced), and two empty version identifiers.  The error that wraps a
    failure of [NewClient] is never returned. *)
Theorem NewDNSProviderConfig_outcomes :
  NewClient "" = inl ErrMissingAPIToken
  /\ (forall token, token <> "" ->
        NewClient token = inr {| apiToken := token; baseURL := DefaultBaseURL;
                                 HTTPClient_ := {| Internal.Timeout := 5 * Second |} |})
  /\ NewDNSProviderConfig None = inl ErrNilConfig
  /\ (forall cfg, cfg.(APIToken) = "" ->
        NewDNSProviderConfig (Some cfg) = inl ErrCredentialsMissing)
  /\ (forall cfg, cfg.(APIToken) <> "" ->
        NewDNSProviderConfig (Some cfg)
        = inr {| config := cfg;
                 client := {| apiToken := cfg.(APIToken); baseURL := DefaultBaseURL;
                              HTTPClient_ := cfg.(HTTPClient) |};
                 activeVersionUUID := ""; tempVersionUUID := "" |})
  /\ (forall cfg cause, NewDNSProviderConfig cfg <> inl (ErrNewClient cause)).
Proof.
  split; [reflexivity|]. split.
  { intros token Ht. unfold NewClient. apply String.eqb_neq in Ht. rewrite Ht. reflexivity. }
  split; [reflexivity|]. split.
  { intros cfg Ht. unfold NewDNSProviderConfig. rewrite Ht. reflexivity. }
  split.
  { intros cfg Ht. unfold NewDNSProviderConfig, NewClient.
    apply String.eqb_neq in Ht. rewrite Ht. reflexivity. }
  intros [cfg|] cause; [|discriminate].
  unfold NewDNSProviderConfig, NewClient.
  destruct (String.eqb cfg.(APIToken) ""); discriminate.
Qed.

End Construction.

End Construction.

(** ** Requests and responses *)

Module Requests.
Import Go Internal Trace GoFacts ClientFacts ZoneName.


Section Requests.
Context `{Backend}.


(** X3.  Every request of every operation of the client carries the
    headers [Accept: application/json] and [Authorization: Bearer <token>]
    with the client's token, and [Content-Type: application/json] exactly
    when it has a body; there is no other header. *)
Theorem every_request_carries_the_token (op : Operation) (c : Client)
        (authZone : string) (w : World) :
  Forall (fun req =>
            req.(ReqHeader) = headersFor c req.(ReqBody)
            /\ In ("Accept", "application/json") req.(ReqHeader)
            /\ In ("Authorization", "Bearer " ++ c.(apiToken)) req.(ReqHeader)
            /\ (In ("Content-Type", "application/json") req.(ReqHeader)
                <-> req.(ReqBody) <> PayloadNil))
         (sentBy (run op c authZone) w).
Proof.
  apply emits_sentBy, emits_run. intros method elem payload.
  split; [reflexivity|]. split; [left; reflexivity|].
  split; [right; left; reflexivity|].
  cbn [requestFor ReqHeader ReqBody]. destruct payload; cbn [In]; split.
  - intros [E|[E|[]]]; discriminate E.
  - intros Hn. elim Hn. reflexivity.
  - intros _. discriminate.
  - intros _. right; right; left. reflexivity.
  - intros _. discriminate.
  - intros _. right; right; left. reflexivity.
Qed.

Lemma snd_bind_pure (A B : Type) (m : M A) (k : A -> M B) (w : World) :
  (forall a w1, snd (k a w1) = w1) -> snd (bind m k w) = snd (m w).
Proof.
  intros Hk. unfold bind. destruct (m w) as [[a|e|p] w1]; [apply Hk| |]; reflexivity.
Qed.

Lemma sentBy_bind_pure (A B : Type) (m : M A) (k : A -> M B) (w : World) :
  (forall a w1, snd (k a w1) = w1) -> sentBy (bind m k) w = sentBy m w.
Proof. intros Hk. unfold sentBy. rewrite (snd_bind_pure _ _ _ _ _ Hk). reflexivity. Qed.

Ltac pure_tail :=
  intros; unfold bind, try, ret; cbn beta;
  repeat match goal with
         | |- context [if ?b then _ else _] => destruct b
         | |- context [index ?s ?i] => destruct (index s i)
         | |- context [slice ?s ?lo ?hi] => destruct (slice s lo hi)
         end; reflexivity.

Lemma sentBy_get (A : Type) (c : Client) (authZone : string) (elem : string -> list string)
      (result : option (Raw -> option A)) (zero : A) (w : World) :
  sentBy (bind (try (domainNameOf authZone))
               (fun d => exchange c MethodGet (elem d) PayloadNil result zero)) w =
  match domainNameOf authZone with
  | inr d =>
      if NewRequestOK MethodGet (JoinPath c.(baseURL) (elem d))
      then [requestFor c MethodGet (elem d) PayloadNil] else []
  | inl _ => []
  end.
Proof.
  rewrite sentBy_bind_try. destruct (domainNameOf authZone); [reflexivity|].
  apply sentBy_exchange.
Qed.

(** X4.  The seven look-ups ([ListAllVersions], [FindActiveZoneVersion],
    [FindZoneVersion], [GetZoneVersion], [GetAllRecords], [GetRecord],
    [ReadVersionUUID]) send at most one request, a GET without a body to the
    path of the listing or version they read: they never ask the registrar
    to change anything, and the searching is done on the client. *)
Theorem lookups_send_one_GET (op : Operation) (c : Client) (authZone : string) (w : World) :
  readOnly op = true ->
  sentBy (run op c authZone) w =
  match domainNameOf authZone with
  | inr d =>
      if NewRequestOK MethodGet (JoinPath c.(baseURL) (readPath op d))
      then [requestFor c MethodGet (readPath op d) PayloadNil] else []
  | inl _ => []
  end.
Proof.
  destruct op; try discriminate; intros _; cbn [run readPath]; unfold discard;
    rewrite sentBy_bind_pure by pure_tail.
  - rewrite ListAllVersions_run. apply sentBy_get.
  - unfold FindActiveZoneVersion. rewrite sentBy_bind_pure by pure_tail.
    rewrite ListAllVersions_run. apply sentBy_get.
  - unfold FindZoneVersion. rewrite sentBy_bind_pure by pure_tail.
    rewrite ListAllVersions_run. apply sentBy_get.
  - rewrite GetZoneVersion_run.
    apply (sentBy_get _ c authZone (fun d => ["domain"; d; "version"; versionUUID])).
  - rewrite GetAllRecords_run.
    apply (sentBy_get _ c authZone (fun d => ["domain"; d; "version"; versionUUID; "zone"])).
  - unfold GetRecord. rewrite sentBy_bind_pure by pure_tail.
    rewrite GetAllRecords_run.
    apply (sentBy_get _ c authZone (fun d => ["domain"; d; "version"; versionUUID; "zone"])).
  - unfold ReadVersionUUID. rewrite sentBy_bind_pure by pure_tail.
    unfold GetRecord. rewrite sentBy_bind_pure by pure_tail.
    rewrite GetAllRecords_run.
    apply (sentBy_get _ c authZone (fun d => ["domain"; d; "version"; versionUUID; "zone"])).
Qed.

End Requests.

End Requests.

(** ** Looking up a version *)

Module Lookups.
Import Go Internal Trace GoFacts ClientFacts VersionLookup.

Section Lookups.
Context `{Backend}.

(** X5.  After a listing that returns [versions], [FindZoneVersion]
    returns without error the first version that bears the name, and the
    zero version when none does; it returns an error or panics only where
    the listing does, so a missing name is never a failure. *)
Theorem FindZoneVersion_first_match
        (c : Client) (authZone versionName : string) (w : World) :
  (forall versions w',
      ListAllVersions c authZone w = (Ok versions, w') ->
      (forall pre v post,
          versions = (pre ++ v :: post)%list ->
          (forall x, In x pre -> x.(VName) <> versionName) ->
          v.(VName) = versionName ->
          FindZoneVersion c authZone versionName w = (Ok v, w'))
      /\ ((forall x, In x versions -> x.(VName) <> versionName) ->
          FindZoneVersion c authZone versionName w = (Ok zeroVersion, w')))
  /\ (forall e w',
         FindZoneVersion c authZone versionName w = (Err e, w')
         <-> ListAllVersions c authZone w = (Err e, w'))
  /\ (forall p w',
         FindZoneVersion c authZone versionName w = (Fault p, w')
         <-> ListAllVersions c authZone w = (Fault p, w')).
Proof.
  rewrite FindZoneVersion_run. split; [|split].
  - intros versions w' ->. split.
    + intros pre v post -> Hpre Hv.
      rewrite (find_first _ (fun x => String.eqb x.(VName) versionName) pre post v).
      * reflexivity.
      * intros y Hy. apply String.eqb_neq. exact (Hpre y Hy).
      * apply String.eqb_eq. exact Hv.
    + intros Hnone.
      assert (Hf : find (fun v => String.eqb v.(VName) versionName) versions = None).
      { apply find_none_iff. intros v Hv. apply String.eqb_neq. exact (Hnone v Hv). }
      rewrite Hf. reflexivity.
  - intros e w'. destruct (ListAllVersions c authZone w) as [[vs|e0|p0] w0];
      split; try discriminate; intros [= -> ->]; reflexivity.
  - intros p w'. destruct (ListAllVersions c authZone w) as [[vs|e0|p0] w0];
      split; try discriminate; intros [= -> ->]; reflexivity.
Qed.

(** X6.  [FindActiveZoneVersion] returns the first active version of the
    listing, whatever follows it (a second active version is not noticed);
    a version it returns is always active; and it returns an error exactly
    when the listing does, and that error. *)
Theorem FindActiveZoneVersion_first_active (c : Client) (authZone : string) (w : World) :
  (forall pre v post w',
      ListAllVersions c authZone w = (Ok (pre ++ v :: post)%list, w') ->
      (forall x, In x pre -> x.(Active) = false) ->
      v.(Active) = true ->
      FindActiveZoneVersion c authZone w = (Ok v, w'))
  /\ (forall v w', FindActiveZoneVersion c authZone w = (Ok v, w') -> v.(Active) = true)
  /\ (forall e w',
         FindActiveZoneVersion c authZone w = (Err e, w')
         <-> ListAllVersions c authZone w = (Err e, w')).
Proof.
  rewrite FindActiveZoneVersion_run. split; [|split].
  - intros pre v post w' -> Hpre Hv.
    rewrite (find_first _ (fun v => v.(Active)) pre post v Hpre Hv). reflexivity.
  - intros v w'. destruct (ListAllVersions c authZone w) as [[vs|e0|p0] w0];
      try discriminate.
    destruct (find (fun v => v.(Active)) vs) as [x|] eqn:E; [|discriminate].
    intros [= <- _]. exact (proj2 (find_some _ _ E)).
  - intros e w'. destruct (ListAllVersions c authZone w) as [[vs|e0|p0] w0].
    + destruct (find (fun v => v.(Active)) vs); split; discriminate.
    + split; intros [= -> ->]; reflexivity.
    + split; discriminate.
Qed.

End Lookups.

End Lookups.

(** ** Which records are copied, and how far *)

Module Copying.
Import Go Internal Trace GoFacts ClientFacts RegexpFacts ZoneName Duplication.

(** X7.  A record of the source is selected for copying exactly when its
    type starts with [A], or contains [AAAA], [CNAME], [MX] or [SRV], or
    ends with [TXT]; the selection keeps the order of the listing, and a
    record whose type is one of A, AAAA, CNAME, MX, SRV, TXT is always
    selected. *)
Theorem selected_records (records : list Record_) :
  (forall r,
      In r (selected records) <->
      In r records
      /\ (startsWith (word "A") (word r.(Type_))
          \/ contains (word "AAAA") (word r.(Type_))
          \/ contains (word "CNAME") (word r.(Type_))
          \/ contains (word "MX") (word r.(Type_))
          \/ contains (word "SRV") (word r.(Type_))
          \/ endsWith (word "TXT") (word r.(Type_))))
  /\ (forall r, In r records -> In r.(Type_) allowedTypes -> In r (selected records))
  /\ (forall front back,
         selected (front ++ back) = (selected front ++ selected back)%list).
Proof.
  split; [|split].
  - intros r. unfold selected. rewrite filter_In, MatchString_allowedTypesRegexp.
    reflexivity.
  - intros r Hin Ht. unfold selected. apply filter_In. split; [exact Hin|].
    apply allowedTypes_accepted. exact Ht.
  - intros front back. unfold selected. apply filter_app.
Qed.

Section Copying.
Context `{Backend}.




End Copying.

End Copying.

(** ** The two phases of a challenge *)

Module Challenge.
Import Go Internal ScalewayDedibox Trace GoFacts ClientFacts ZoneName VersionLookup.
Import Duplication Copying Coordinator.

Section Challenge.
Context `{Backend} `{DNS01}.


(** The same in every outcome: the request is sent, or it is not and the
    operation has failed with an error. *)
Lemma exchange_step_cases (A : Type) (c : Client) (authZone d : string) (method : Method)
      (elem : string -> list string) (payload : Payload)
      (result : option (Raw -> option A)) (zero : A) (w : World) (m : M A) :
  domainNameOf authZone = inr d ->
  m = bind (try (domainNameOf authZone))
           (fun d => exchange c method (elem d) payload result zero) ->
  (forall p, fst (m w) <> Fault p)
  /\ ((snd (m w)).(sent) = (w.(sent) ++ [requestFor c method (elem d) payload])%list
      \/ ((snd (m w)).(sent) = w.(sent) /\ exists e, fst (m w) = Err e)).
Proof.
  intros Hd ->.
  assert (Hrun : bind (try (domainNameOf authZone))
                      (fun d => exchange c method (elem d) payload result zero) w
                 = exchange c method (elem d) payload result zero w).
  { unfold bind at 1, try. rewrite Hd. reflexivity. }
  rewrite Hrun, exchange_run. destruct (NewRequestOK _ _).
  - split; [|left; apply do_sent].
    intros p. unfold do. destruct (Do _ _ _) as [resp srv].
    destruct resp as [|status body]; [discriminate|].
    destruct (negb _); [discriminate|].
    destruct result as [unmarshal|]; [|discriminate].
    destruct body as [raw|]; [|discriminate].
    destruct (unmarshal raw); discriminate.
  - split; [discriminate|]. right. split; [reflexivity|]. eexists. reflexivity.
Qed.



(** *** [CleanUp] *)

Ltac sent_so_far :=
  unfold fail; cbn [fst snd];
  repeat match goal with
         | Hs : sent _ = _ |- _ => rewrite Hs; clear Hs
         end;
  rewrite <- ?app_assoc, ?app_nil_r; reflexivity.

Ltac no_delete_among :=
  let Hex := fresh "Hex" in
  intros Hex;
  repeat (apply Exists_cons in Hex; destruct Hex as [Hex|Hex]; [discriminate Hex|]);
  inversion Hex.

(** A leaf of the case analysis of [CleanUp] that stops before the
    DELETE: [l] was sent, [r] was not. *)
Ltac stopped l r :=
  intros <-; split; [reflexivity|];
  exists l, r; split; [sent_so_far|];
  split; [reflexivity|]; split; [discriminate|no_delete_among].

Lemma CleanUp_cases
      (domainName token keyAuth : string) (d : DNSProvider) (w : World)
      (out : Res ProviderError unit * (DNSProvider * World)) :
  CleanUp domainName token keyAuth (d, w) = out ->
  fst (snd out) = d
  /\ exists l rest,
      (snd (snd out)).(sent) = (w.(sent) ++ l)%list
      /\ cleanupPlan d domainName keyAuth = (l ++ rest)%list
      /\ (fst out = Ok tt -> rest = [])
      /\ (Exists (fun req => req.(ReqMethod) = MethodDelete) l ->
          fst out = Ok tt
          \/ exists version cause, fst out = Err (ErrDeleteVersion version cause)).
Proof.
  unfold CleanUp, cleanupPlan.
  destruct (FindZoneByFqdn _) as [authZone|].
  2:{ stopped (@nil Request) (@nil Request). }
  unfold bind at 1, this. cbn [fst].
  destruct (domainNameOf authZone) as [p|dom] eqn:Hd.
  { assert (Hf : GetZoneVersion d.(client) authZone d.(tempVersionUUID) w = (Fault p, w)).
    { rewrite GetZoneVersion_run. unfold bind, try. rewrite Hd. reflexivity. }
    unfold bind. rewrite call_run, Hf. stopped (@nil Request) (@nil Request). }
  unfold cleanupRequests.
  (* the temporary version *)
  unfold bind at 1. rewrite call_run.
  destruct (exchange_step_cases _ d.(client) authZone dom MethodGet
              (fun x => ["domain"; x; "version"; d.(tempVersionUUID)]) PayloadNil
              (Some UnmarshalVersion) zeroVersion w _ Hd
              (GetZoneVersion_run d.(client) authZone d.(tempVersionUUID)))
    as [F1 C1].
  destruct (GetZoneVersion d.(client) authZone d.(tempVersionUUID) w)
    as [[tempVersion|e1|p1] w1]; cbn [fst snd] in F1, C1.
  2:{ destruct C1 as [S1|[S1 _]].
      - stopped [requestFor d.(client) MethodGet
                   ["domain"; dom; "version"; d.(tempVersionUUID)] PayloadNil]
                [requestFor d.(client) MethodGet
                   ["domain"; dom; "version"; d.(activeVersionUUID)] PayloadNil;
                 requestFor d.(client) MethodPatch
                   ["domain"; dom; "version"; d.(activeVersionUUID); "enable"] PayloadNil;
                 requestFor d.(client) MethodDelete
                   ["domain"; dom; "version"; d.(tempVersionUUID)] PayloadNil].
      - stopped (@nil Request)
                (cleanupRequests d.(client) dom d.(activeVersionUUID) d.(tempVersionUUID)). }
  2:{ elim (F1 p1). reflexivity. }
  destruct C1 as [S1|[_ [e He]]]; [|discriminate He].
  destruct (Version_eqb tempVersion zeroVersion).
  { stopped [requestFor d.(client) MethodGet
               ["domain"; dom; "version"; d.(tempVersionUUID)] PayloadNil]
            [requestFor d.(client) MethodGet
               ["domain"; dom; "version"; d.(activeVersionUUID)] PayloadNil;
             requestFor d.(client) MethodPatch
               ["domain"; dom; "version"; d.(activeVersionUUID); "enable"] PayloadNil;
             requestFor d.(client) MethodDelete
               ["domain"; dom; "version"; d.(tempVersionUUID)] PayloadNil]. }
  (* the version that was active *)
  unfold bind at 1. rewrite call_run.
  destruct (exchange_step_cases _ d.(client) authZone dom MethodGet
              (fun x => ["domain"; x; "version"; d.(activeVersionUUID)]) PayloadNil
              (Some UnmarshalVersion) zeroVersion w1 _ Hd
              (GetZoneVersion_run d.(client) authZone d.(activeVersionUUID)))
    as [F2 C2].
  destruct (GetZoneVersion d.(client) authZone d.(activeVersionUUID) w1)
    as [[realVersion|e2|p2] w2]; cbn [fst snd] in F2, C2.
  2:{ destruct C2 as [S2|[S2 _]].
      - stopped [requestFor d.(client) MethodGet
                   ["domain"; dom; "version"; d.(tempVersionUUID)] PayloadNil;
                 requestFor d.(client) MethodGet
                   ["domain"; dom; "version"; d.(activeVersionUUID)] PayloadNil]
                [requestFor d.(client) MethodPatch
                   ["domain"; dom; "version"; d.(activeVersionUUID); "enable"] PayloadNil;
                 requestFor d.(client) MethodDelete
                   ["domain"; dom; "version"; d.(tempVersionUUID)] PayloadNil].
      - stopped [requestFor d.(client) MethodGet
                   ["domain"; dom; "version"; d.(tempVersionUUID)] PayloadNil]
                [requestFor d.(client) MethodGet
                   ["domain"; dom; "version"; d.(activeVersionUUID)] PayloadNil;
                 requestFor d.(client) MethodPatch
                   ["domain"; dom; "version"; d.(activeVersionUUID); "enable"] PayloadNil;
                 requestFor d.(client) MethodDelete
                   ["domain"; dom; "version"; d.(tempVersionUUID)] PayloadNil]. }
  2:{ elim (F2 p2). reflexivity. }
  destruct C2 as [S2|[_ [e He]]]; [|discriminate He].
  destruct (Version_eqb realVersion zeroVersion).
  { stopped [requestFor d.(client) MethodGet
               ["domain"; dom; "version"; d.(tempVersionUUID)] PayloadNil;
             requestFor d.(client) MethodGet
               ["domain"; dom; "version"; d.(activeVersionUUID)] PayloadNil]
            [requestFor d.(client) MethodPatch
               ["domain"; dom; "version"; d.(activeVersionUUID); "enable"] PayloadNil;
             requestFor d.(client) MethodDelete
               ["domain"; dom; "version"; d.(tempVersionUUID)] PayloadNil]. }
  (* back to the version that was active *)
  unfold bind at 1. rewrite call_run.
  destruct (exchange_step_cases _ d.(client) authZone dom MethodPatch
              (fun x => ["domain"; x; "version"; d.(activeVersionUUID); "enable"])
              PayloadNil None tt w2 _ Hd
              (EnableZone_run d.(client) authZone d.(activeVersionUUID)))
    as [F3 C3].
  destruct (EnableZone d.(client) authZone d.(activeVersionUUID) w2)
    as [[[]|e3|p3] w3]; cbn [fst snd] in F3, C3.
  2:{ destruct C3 as [S3|[S3 _]].
      - stopped [requestFor d.(client) MethodGet
                   ["domain"; dom; "version"; d.(tempVersionUUID)] PayloadNil;
                 requestFor d.(client) MethodGet
                   ["domain"; dom; "version"; d.(activeVersionUUID)] PayloadNil;
                 requestFor d.(client) MethodPatch
                   ["domain"; dom; "version"; d.(activeVersionUUID); "enable"] PayloadNil]
                [requestFor d.(client) MethodDelete
                   ["domain"; dom; "version"; d.(tempVersionUUID)] PayloadNil].
      - stopped [requestFor d.(client) MethodGet
                   ["domain"; dom; "version"; d.(tempVersionUUID)] PayloadNil;
                 requestFor d.(client) MethodGet
                   ["domain"; dom; "version"; d.(activeVersionUUID)] PayloadNil]
                [requestFor d.(client) MethodPatch
                   ["domain"; dom; "version"; d.(activeVersionUUID); "enable"] PayloadNil;
                 requestFor d.(client) MethodDelete
                   ["domain"; dom; "version"; d.(tempVersionUUID)] PayloadNil]. }
  2:{ elim (F3 p3). reflexivity. }
  destruct C3 as [S3|[_ [e He]]]; [|discriminate He].
  (* the temporary version goes *)
  rewrite call_run.
  destruct (exchange_step_cases _ d.(client) authZone dom MethodDelete
              (fun x => ["domain"; x; "version"; d.(tempVersionUUID)])
              PayloadNil None tt w3 _ Hd
              (DeleteZoneVersion_run d.(client) authZone d.(tempVersionUUID)))
    as [F4 C4].
  destruct (DeleteZoneVersion d.(client) authZone d.(tempVersionUUID) w3)
    as [[[]|e4|p4] w4]; cbn [fst snd] in F4, C4.
  - destruct C4 as [S4|[_ [e He]]]; [|discriminate He].
    intros <-. split; [reflexivity|].
    exists (cleanupRequests d.(client) dom d.(activeVersionUUID) d.(tempVersionUUID)), [].
    split; [unfold cleanupRequests; sent_so_far|].
    split; [reflexivity|]. split; [reflexivity|]. intros _. left. reflexivity.
  - destruct C4 as [S4|[S4 _]].
    + intros <-. split; [reflexivity|].
      exists (cleanupRequests d.(client) dom d.(activeVersionUUID) d.(tempVersionUUID)), [].
      split; [unfold cleanupRequests; sent_so_far|].
      split; [reflexivity|]. split; [reflexivity|].
      intros _. right. eexists _, _. reflexivity.
    + stopped [requestFor d.(client) MethodGet
                 ["domain"; dom; "version"; d.(tempVersionUUID)] PayloadNil;
               requestFor d.(client) MethodGet
                 ["domain"; dom; "version"; d.(activeVersionUUID)] PayloadNil;
               requestFor d.(client) MethodPatch
                 ["domain"; dom; "version"; d.(activeVersionUUID); "enable"] PayloadNil]
              [requestFor d.(client) MethodDelete
                 ["domain"; dom; "version"; d.(tempVersionUUID)] PayloadNil].
  - elim (F4 p4). reflexivity.
Qed.

(** X10.  [CleanUp] sends an initial part of four requests, in this
    order: GET of the temporary version, GET of the version that was
    active, PATCH that enables the latter, DELETE of the temporary version;
    all four when it returns without error.  A DELETE is sent only after
    the PATCH has been answered with a success, so every failure before it
    leaves the temporary version in place.  In every outcome the provider is
    left as it was, the two UUIDs included. *)
Theorem CleanUp_sends_its_plan_in_order
        (domainName token keyAuth : string) (d : DNSProvider) (w : World) :
  fst (snd (CleanUp domainName token keyAuth (d, w))) = d
  /\ exists l rest,
      (snd (snd (CleanUp domainName token keyAuth (d, w)))).(sent) = (w.(sent) ++ l)%list
      /\ cleanupPlan d domainName keyAuth = (l ++ rest)%list
      /\ (fst (CleanUp domainName token keyAuth (d, w)) = Ok tt -> rest = [])
      /\ (Exists (fun req => req.(ReqMethod) = MethodDelete) l ->
          fst (CleanUp domainName token keyAuth (d, w)) = Ok tt
          \/ exists version cause,
              fst (CleanUp domainName token keyAuth (d, w))
              = Err (ErrDeleteVersion version cause)).
Proof. exact (CleanUp_cases domainName token keyAuth d w _ eq_refl). Qed.

(** *** What [Present] keeps and never does *)

Lemma steady_fail (A : Type) (Q : Request -> Prop) (e : ProviderError) :
  steady Q (@fail _ _ A e).
Proof.
  intros d w. cbn. repeat split. exists []. rewrite app_nil_r.
  split; [reflexivity|constructor].
Qed.

Lemma steady_this (Q : Request -> Prop) : steady Q this.
Proof.
  intros d w. cbn. repeat split. exists []. rewrite app_nil_r.
  split; [reflexivity|constructor].
Qed.

Lemma steady_setActiveVersionUUID (Q : Request -> Prop) (u : string) :
  steady Q (setActiveVersionUUID u).
Proof.
  intros d w. cbn. repeat split. exists []. rewrite app_nil_r.
  split; [reflexivity|constructor].
Qed.

Lemma steady_setTempVersionUUID (Q : Request -> Prop) (u : string) :
  steady Q (setTempVersionUUID u).
Proof.
  intros d w. cbn. repeat split. exists []. rewrite app_nil_r.
  split; [reflexivity|constructor].
Qed.

Lemma steady_call (A : Type) (Q : Request -> Prop) (m : M A)
      (wrap : Error -> ProviderError) :
  emits Q m -> steady Q (call m wrap).
Proof.
  intros Hm d w. rewrite call_run. destruct (Hm w) as (l & Hl & HQ).
  destruct (m w) as [[a|e|p] w1]; cbn [fst snd] in *;
    (split; [reflexivity|]; split; [reflexivity|]; exists l; split; assumption).
Qed.

Lemma steady_bind (A B : Type) (Q : Request -> Prop) (m : P A) (k : A -> P B) :
  steady Q m -> (forall a, steady Q (k a)) -> steady Q (bind m k).
Proof.
  intros Hm Hk d w. destruct (Hm d w) as (Hc & Hcl & l1 & Hl1 & HQ1). unfold bind.
  destruct (m (d, w)) as [[a|e|p] [d1 w1]]; cbn [fst snd] in *.
  - destruct (Hk a d1 w1) as (Hc2 & Hcl2 & l2 & Hl2 & HQ2).
    split; [congruence|]. split; [congruence|].
    exists (l1 ++ l2)%list. rewrite Hl2, Hl1, app_assoc.
    split; [reflexivity|]. apply Forall_app; split; assumption.
  - split; [exact Hc|]. split; [exact Hcl|]. exists l1. split; assumption.
  - split; [exact Hc|]. split; [exact Hcl|]. exists l1. split; assumption.
Qed.

Ltac not_a_delete :=
  repeat first
    [ apply emits_ret
    | apply emits_bind_try; intros ? _
    | apply emits_exchange; discriminate
    | apply emits_bind; [|intros ?]
    | match goal with
      | |- emits _ (if ?b then _ else _) => destruct b
      end ].

Lemma duplicateEach_never_deletes (c : Client) (authZone target : string)
      (records : list Record_) :
  emits (fun req => req.(ReqMethod) <> MethodDelete)
        (duplicateEach c authZone target records).
Proof.
  induction records as [|r records IH]; cbn [duplicateEach].
  - apply emits_ret.
  - destruct (MatchString allowedTypesRegexp r.(Type_)); [|exact IH].
    apply emits_bind; [|intros _; exact IH].
    rewrite CreateRecord_run. not_a_delete.
Qed.

(** X11.  In every outcome, [Present] leaves the provider's configuration
    and client as they were, leaves what was sent before in place, and sends
    no DELETE: it never removes a version, not even the temporary one it
    created when a later step fails. *)
Theorem Present_never_deletes (domainName token keyAuth : string) :
  steady (fun req => req.(ReqMethod) <> MethodDelete)
         (Present domainName token keyAuth).
Proof.
  unfold Present. destruct (FindZoneByFqdn _) as [authZone|]; [|apply steady_fail].
  apply steady_bind; [apply steady_this|intros d].
  apply steady_bind.
  { apply steady_call. unfold FindZoneVersion. rewrite ListAllVersions_run. not_a_delete. }
  intros version. destruct (negb _); [apply steady_fail|].
  apply steady_bind.
  { apply steady_call. unfold FindActiveZoneVersion. rewrite ListAllVersions_run.
    not_a_delete. }
  intros active. apply steady_bind; [apply steady_setActiveVersionUUID|intros _].
  apply steady_bind.
  { apply steady_call. rewrite CreateZoneVersion_run. not_a_delete. }
  intros temp. apply steady_bind; [apply steady_setTempVersionUUID|intros _].
  apply steady_bind.
  { apply steady_call. unfold DuplicateZoneVersionRecords.
    apply emits_bind; [rewrite GetAllRecords_run; not_a_delete|].
    intros records. apply duplicateEach_never_deletes. }
  intros _. apply steady_bind.
  { apply steady_call. rewrite CreateRecord_run. not_a_delete. }
  intros _. apply steady_call. rewrite EnableZone_run. not_a_delete.
Qed.

(** *** The guard of [Present] *)

(** X12.  With a non-empty label configured and a listing that returns
    [versions]: when one of them bears the label, [Present] fails with the
    conflict error right after that listing, the provider untouched; when
    none does, [Present] does not fail with the conflict error, whatever
    happens later. *)
Theorem Present_conflict_exactly_on_the_label
        (domainName token keyAuth authZone : string) (d : DNSProvider) (w w' : World)
        (versions : list Version) :
  FindZoneByFqdn (GetChallengeInfo domainName keyAuth).(EffectiveFQDN) = Some authZone ->
  d.(config).(TempZoneVersionName) <> "" ->
  ListAllVersions d.(client) authZone w = (Ok versions, w') ->
  ((exists v, In v versions /\ v.(VName) = d.(config).(TempZoneVersionName)) ->
   Present domainName token keyAuth (d, w)
   = (Err (ErrVersionExists d.(config).(TempZoneVersionName) authZone), (d, w')))
  /\ ((forall v, In v versions -> v.(VName) <> d.(config).(TempZoneVersionName)) ->
      forall name zone,
        fst (Present domainName token keyAuth (d, w)) <> Err (ErrVersionExists name zone)).
Proof.
  intros Hzone Hlabel Hall. split.
  - intros (v0 & Hin & Hname).
    destruct (find (fun x => String.eqb x.(VName) d.(config).(TempZoneVersionName))
                   versions) as [v|] eqn:Hfind.
    + apply (Present_guard_conflict domainName token keyAuth authZone d w w'
               versions v Hzone Hall Hfind).
      apply find_some in Hfind. destruct Hfind as [_ Hv].
      apply String.eqb_eq in Hv. intros ->. cbn in Hv. congruence.
    + apply (find_none _ _ Hfind) in Hin. apply String.eqb_neq in Hin. contradiction.
  - intros Hnone name zone.
    assert (Hguard : FindZoneVersion d.(client) authZone d.(config).(TempZoneVersionName) w
                     = (Ok zeroVersion, w'))
      by (apply (FindZoneVersion_absent _ _ _ _ _ versions Hall Hnone)).
    unfold Present. rewrite Hzone.
    unfold bind at 1, this. cbn [fst].
    unfold bind at 1. rewrite call_run, Hguard.
    change (Version_eqb zeroVersion zeroVersion) with true. cbn [negb].
    unfold bind at 1. rewrite call_run.
    destruct (FindActiveZoneVersion _ _ w') as [[active|e2|p2] wb]; try discriminate.
    unfold bind at 1, setActiveVersionUUID. cbn [fst snd].
    unfold bind at 1. rewrite call_run.
    destruct (CreateZoneVersion _ _ _ wb) as [[temp|e3|p3] wc]; try discriminate.
    unfold bind at 1, setTempVersionUUID. cbn [fst snd].
    unfold bind at 1. rewrite call_run.
    destruct (DuplicateZoneVersionRecords _ _ _ _ wc) as [[[]|e4|p4] wd]; try discriminate.
    unfold bind at 1. rewrite call_run.
    destruct (CreateRecord _ _ _ _ wd) as [[created|e5|p5] we]; try discriminate.
    rewrite call_run.
    destruct (EnableZone _ _ _ we) as [[[]|e6|p6] wf]; discriminate.
Qed.

(** *** What a failed [Present] leaves in the provider *)


End Challenge.

End Challenge.

(** ** The texts of the errors *)

Module Texts.
Import ScalewayDedibox.


End Texts.

(** ** Further runs against the in-memory registrar *)

Module MoreRuns.
Import Go Internal ScalewayDedibox Trace Registrar.
Import Requests Copying Challenge Coordinator Texts.

Lemma lookups_send_one_GET_witness :
  sentBy (run (CallGetRecord "v1" "test04" "A") testClient "example.com.") zoneLookup
  = [requestFor testClient MethodGet ["domain"; "example.com"; "version"; "v1"; "zone"]
                PayloadNil].
Proof.
  exact (lookups_send_one_GET (CallGetRecord "v1" "test04" "A") testClient
                              "example.com." zoneLookup eq_refl).
Defined.



Lemma Present_conflict_exactly_on_the_label_witness :
  Present "example.com" "token" "keyAuth" (afterPresent "lego_tmp")
  = (Err (ErrVersionExists "lego_tmp" "example.com."),
     (fst (afterPresent "lego_tmp"),
      snd (ListAllVersions testClient "example.com." (snd (afterPresent "lego_tmp"))))).
Proof.
  refine (proj1 (Present_conflict_exactly_on_the_label
                   "example.com" "token" "keyAuth" "example.com."
                   (fst (afterPresent "lego_tmp")) (snd (afterPresent "lego_tmp"))
                   (snd (ListAllVersions testClient "example.com."
                           (snd (afterPresent "lego_tmp"))))
                   (map fst (snd (afterPresent "lego_tmp")).(server).(versions))
                   _ _ _) _).
  - reflexivity.
  - discriminate.
  - reflexivity.
  - eexists. split; [right; left; reflexivity|reflexivity].
Defined.




End MoreRuns.
